(** * payrange_solution1.c: the capture pipeline of the PayRange challenge

    A shallow embedding of [src/WIN32-MSVC/payrange_solution1.c] and the
    properties of it that the specification talks about.

    The C program keeps four globals ([currentRandomNumberFromTaskA],
    [taskBStructure], [valueEStructure], [fileELineNumber]) that three
    FreeRTOS tasks read and write.  Here every task body and key handler
    is a computation in a small state-and-error monad over a [World] that
    holds those globals together with the pieces of the environment the
    code touches: the C library's [rand()], the file [E.txt], the console
    and the suspended flag of task A.

    Conventions of the model:
    - [int], [int64_t] and [TickType_t] values are in [Z]; where the C
      code does arithmetic that can leave the type, the wrap-around is
      written with [int32] and [int64];
    - [taskBStructure] is held as its bytes, in the layout of the Win32
      port (a 4-byte little-endian [TickType_t] followed by the 8 bytes of
      [stringPlacer], 12 bytes a slot): the code copies a string of 8
      characters and its NUL into the 8 bytes of [stringPlacer], and the
      ninth byte lands on the slot that follows.  The array of structures
      that the code reads, [taskBStructure w], is decoded from the bytes,
      a string being read as [strcpy] and [%s] read it, up to the first
      NUL;
    - [valueEStructure] is a list of records; its [stringPlacer] holds
      the string that was copied into it, which is how it reads back as
      long as the copy ends within the 4 bytes of padding that follow
      [stringPlacer] in [valueE_t]; a longer copy is the fault
      [OutOfBounds];
    - an index outside an array, and a read or write that leaves the
      bytes of [taskBStructure], is the fault [OutOfBounds];
    - the local buffer [taskBRandomString] of task B is a [string]: the
      two bytes that the code writes past its 7 bytes are on the stack of
      the task, whose layout the source does not fix, and [strcpy] is
      taken to read the string back as it was written;
    - [rand()] returns the next element of an arbitrary sequence of draws
      [rand_seq]; the world counts the calls made so far;
    - [xTaskGetTickCount()], [_getch()] and [scanf] results are arguments
      of the computation that consumes them;
    - [fclose] of a null [FILE] pointer does not return: it is the fault
      [NullFile];
    - the [while] loop of [handleInterruptC] takes a bound on its number
      of iterations and ends in [OutOfFuel] when the bound is used up. *)

From Stdlib Require Import ZArith Lia Bool List String Ascii.
From stdpp Require Import base tactics option list.
Import ListNotations.

Local Open Scope string_scope.
Local Open Scope Z_scope.

(** ** Project configurable defines *)

Definition NUMBER_OF_ALPHANUMERIC_DIGITS : Z := 8.
Definition SIZE_OF_THE_TASK_B_ARRAY : Z := 5.
Definition SIZE_OF_VALUE_E_STRUCTURE : Z := 7.

(** ** Machine integers *)

(** Two's complement reduction to [w] bits, as MSVC does on overflow. *)
Definition wrap_signed (w : Z) (z : Z) : Z :=
  (z + 2 ^ (w - 1)) mod 2 ^ w - 2 ^ (w - 1).

Definition int32 : Z -> Z := wrap_signed 32.
Definition int64 : Z -> Z := wrap_signed 64.

Definition INT_MAX : Z := 2147483647.

(** ** Bytes *)

(** A byte of memory is an [ascii]; [NUL] ends a C string. *)
Definition NUL : ascii := Ascii.zero.

Definition byte_of_Z (z : Z) : ascii := ascii_of_N (Z.to_N (z mod 256)).
Definition Z_of_byte (c : ascii) : Z := Z.of_N (N_of_ascii c).

(** An unsigned integer of [n] bytes, little-endian: what an assignment
    to such a variable leaves in memory, and what reading one gives. *)
Fixpoint encode_le (n : nat) (z : Z) : list ascii :=
  match n with
  | O => []
  | S n' => byte_of_Z z :: encode_le n' (z / 256)
  end.

Fixpoint decode_le (l : list ascii) : Z :=
  match l with
  | [] => 0
  | c :: l' => Z_of_byte c + 256 * decode_le l'
  end.

(** The C string that starts at the head of [m]: the bytes before the
    first [NUL] (all of [m] when it holds none, see [terminated]). *)
Fixpoint c_string (m : list ascii) : string :=
  match m with
  | [] => EmptyString
  | c :: m' => if Ascii.eqb c NUL then EmptyString
               else String c (c_string m')
  end.

Definition terminated (m : list ascii) : bool :=
  existsb (fun c => Ascii.eqb c NUL) m.

(** [bytes] written at offset [address] of [m]. *)
Definition mem_write (m : list ascii) (address : nat) (bytes : list ascii)
  : list ascii :=
  take address m ++ bytes ++ drop (address + length bytes) m.

(** ** Data structures *)

(** Structure for Task B array of alphanumerics and time *)
Record taskBStructure_t : Type := mk_taskB {
  stringTime : Z;
  stringPlacer : string
}.

(** Structure for D (Value A + Time) *)
Record valueD_t : Type := mk_valueD {
  randomNumberTime : Z;
  randomNumber : Z
}.

(** Structure for E (Value B + Value D) *)
Record valueE_t : Type := mk_valueE {
  randomValueB : taskBStructure_t;
  currentValueD : valueD_t
}.

(** The layout of [taskBStructure_t]: [TickType_t stringTime] at offset
    0, [char stringPlacer[8]] at offset 4. *)
Definition sizeof_TickType_t : nat := 4.
Definition sizeof_stringPlacer : nat := 8.
Definition offsetof_stringTime : nat := 0.
Definition offsetof_stringPlacer : nat := 4.
Definition sizeof_taskBStructure_t : nat := 12.

(** The size of the local buffer [char taskBRandomString
    [NUMBER_OF_ALPHANUMERIC_DIGITS - 1]] of task B. *)
Definition sizeof_taskBRandomString : Z := NUMBER_OF_ALPHANUMERIC_DIGITS - 1.

(** In [valueE_t] the 8 bytes of [stringPlacer] are followed by 4 bytes
    of padding, [currentValueD] being aligned on 8 bytes: a string of up
    to 11 characters and its NUL end before [currentValueD]. *)
Definition valueE_string_room : nat := 11.

(** One line of [E.txt], by the arguments of the [fprintf] that writes it:
    ["Line %d: %d %s %d %llu\n"]. *)
Record log_line : Type := mk_line {
  line_number : Z;
  line_stringTime : Z;
  line_stringPlacer : string;
  line_randomNumberTime : Z;
  line_randomNumber : Z
}.

(** What the program prints on the console, by [printf] call. *)
Inductive console_line : Type :=
| PrintA (generatedRandomNumber : Z)
    (* "A-Thread Random Number: %llu\n" *)
| PromptCode
    (* "\n Please enter A 12-digit code: " *)
| ValueFound (bTime : Z) (bString : string)
    (* "E Value Found. Corresponding B Time = %d, B String = %s" *)
| ValueNotFound (userInputAValue : Z).
    (* "Value %llu was not found in List F \n" *)

(** The globals of the program and the environment it acts on. *)
Record World : Type := mk_world {
  currentRandomNumberFromTaskA : Z;
  (* the bytes of taskBStructure[SIZE_OF_THE_TASK_B_ARRAY] *)
  taskBStructure_mem : list ascii;
  valueEStructure : list valueE_t;
  fileELineNumber : Z;
  (* number of calls of rand() made so far *)
  rand_calls : nat;
  (* E.txt: None when the file does not exist *)
  E_txt : option (list log_line);
  (* whether fopen for writing or appending succeeds *)
  disk_writable : bool;
  (* the console, oldest line first *)
  console : list console_line;
  (* task A is suspended (vTaskSuspend / vTaskResume) *)
  taskA_suspended : bool
}.

(** [taskBStructure[i]] as the code reads it out of the bytes [m]. *)
Definition taskB_at (m : list ascii) (i : nat) : taskBStructure_t :=
  let slot := drop (sizeof_taskBStructure_t * i) m in
  mk_taskB (decode_le (take sizeof_TickType_t (drop offsetof_stringTime slot)))
           (c_string (drop offsetof_stringPlacer slot)).

(** The array [taskBStructure] as the code reads it. *)
Definition taskBStructure (w : World) : list taskBStructure_t :=
  map (taskB_at (taskBStructure_mem w))
      (seq 0 (length (taskBStructure_mem w) / sizeof_taskBStructure_t)).

Definition set_currentRandomNumberFromTaskA (v : Z) (w : World) : World :=
  mk_world v (taskBStructure_mem w) (valueEStructure w) (fileELineNumber w)
           (rand_calls w) (E_txt w) (disk_writable w) (console w)
           (taskA_suspended w).

Definition set_taskBStructure_mem (v : list ascii) (w : World) : World :=
  mk_world (currentRandomNumberFromTaskA w) v (valueEStructure w)
           (fileELineNumber w) (rand_calls w) (E_txt w) (disk_writable w)
           (console w) (taskA_suspended w).

Definition set_valueEStructure (v : list valueE_t) (w : World) : World :=
  mk_world (currentRandomNumberFromTaskA w) (taskBStructure_mem w) v
           (fileELineNumber w) (rand_calls w) (E_txt w) (disk_writable w)
           (console w) (taskA_suspended w).

Definition set_fileELineNumber (v : Z) (w : World) : World :=
  mk_world (currentRandomNumberFromTaskA w) (taskBStructure_mem w)
           (valueEStructure w) v (rand_calls w) (E_txt w) (disk_writable w)
           (console w) (taskA_suspended w).

Definition set_rand_calls (v : nat) (w : World) : World :=
  mk_world (currentRandomNumberFromTaskA w) (taskBStructure_mem w)
           (valueEStructure w) (fileELineNumber w) v (E_txt w)
           (disk_writable w) (console w) (taskA_suspended w).

Definition set_E_txt (v : option (list log_line)) (w : World) : World :=
  mk_world (currentRandomNumberFromTaskA w) (taskBStructure_mem w)
           (valueEStructure w) (fileELineNumber w) (rand_calls w) v
           (disk_writable w) (console w) (taskA_suspended w).

Definition set_console (v : list console_line) (w : World) : World :=
  mk_world (currentRandomNumberFromTaskA w) (taskBStructure_mem w)
           (valueEStructure w) (fileELineNumber w) (rand_calls w) (E_txt w)
           (disk_writable w) v (taskA_suspended w).

Definition set_taskA_suspended (v : bool) (w : World) : World :=
  mk_world (currentRandomNumberFromTaskA w) (taskBStructure_mem w)
           (valueEStructure w) (fileELineNumber w) (rand_calls w) (E_txt w)
           (disk_writable w) (console w) v.

(** ** The monad of the task bodies *)

Inductive fault : Type :=
| AssertFailed   (* a configASSERT whose condition is false *)
| OutOfBounds    (* an array indexed outside its declared size *)
| NullFile.      (* fclose of a null FILE pointer *)

Inductive outcome (A : Type) : Type :=
| Done (a : A) (w : World)
| Fault (f : fault)
| OutOfFuel.

Arguments Done {A} a w.
Arguments Fault {A} f.
Arguments OutOfFuel {A}.

Definition M (A : Type) : Type := World -> outcome A.

Definition ret {A} (a : A) : M A := fun w => Done a w.

Definition bind {A B} (c : M A) (k : A -> M B) : M B :=
  fun w => match c w with
           | Done a w' => k a w'
           | Fault f => Fault f
           | OutOfFuel => OutOfFuel
           end.

Declare Scope task_scope.
Delimit Scope task_scope with task.
Notation "x <- c ;; k" := (bind c (fun x => k))
  (at level 100, c at next level, right associativity) : task_scope.
Notation "c ;;; k" := (bind c (fun _ => k))
  (at level 100, right associativity) : task_scope.
Local Open Scope task_scope.

Definition gets {A} (f : World -> A) : M A := fun w => Done (f w) w.
Definition modify (f : World -> World) : M unit := fun w => Done tt (f w).
Definition raise {A} (f : fault) : M A := fun _ => Fault f.
Definition out_of_fuel {A} : M A := fun _ => OutOfFuel.

(** [configASSERT(x)]: the task stops when [x] is false. *)
Definition configASSERT (x : bool) : M unit :=
  if x then ret tt else raise AssertFailed.

Definition printf (l : console_line) : M unit :=
  modify (fun w => set_console (console w ++ [l]) w).

(** [a[i]] as an rvalue and [a[i] = v], for an array held in the world. *)
Definition array_read {A} (a : list A) (i : Z) : M A :=
  if i <? 0 then raise OutOfBounds
  else match a !! Z.to_nat i with
       | Some x => ret x
       | None => raise OutOfBounds
       end.

Definition array_write {A} (a : list A) (i : Z) (v : A) : M (list A) :=
  if i <? 0 then raise OutOfBounds
  else if (Z.to_nat i <? length a)%nat then ret (<[Z.to_nat i := v]> a)
  else raise OutOfBounds.

(** A write of [bytes] into [taskBStructure[i]] at the offset [member]
    of the structure: the slot must be one of the array; bytes that run
    over the member land on what follows it in the array, and a write
    that leaves the array is [OutOfBounds]. *)
Definition taskB_store (m : list ascii) (i : Z) (member : nat)
    (bytes : list ascii) : M (list ascii) :=
  if i <? 0 then raise OutOfBounds
  else if (sizeof_taskBStructure_t * (Z.to_nat i + 1) <=? length m)%nat
  then
    let address := (sizeof_taskBStructure_t * Z.to_nat i + member)%nat in
    if (address + length bytes <=? length m)%nat
    then ret (mem_write m address bytes)
    else raise OutOfBounds
  else raise OutOfBounds.

(** ** The program *)

(** Character set dictionary of [generateRandomString]. *)
Definition charset : string :=
  "abcdefghijklmnopqrstuvwxyzABCDEFGHIJKLMNOPQRSTUVWXYZ0123456789".

(** [main_payrange], up to the start of the scheduler: the line number
    counter is reset; the three tasks it creates are the computations
    below, run by [step]. *)
Definition main_payrange (w : World) : World := set_fileELineNumber 0 w.

(** The globals as the C runtime zero-initialises them, for a given disk. *)
Definition boot (old_E_txt : option (list log_line)) (writable : bool) : World :=
  mk_world 0
           (replicate (sizeof_taskBStructure_t
                       * Z.to_nat SIZE_OF_THE_TASK_B_ARRAY) NUL)
           (replicate (Z.to_nat SIZE_OF_VALUE_E_STRUCTURE)
                      (mk_valueE (mk_taskB 0 "") (mk_valueD 0 0)))
           0 0%nat old_E_txt writable [] false.

(** What the scheduler can run next. *)
Inductive event : Type :=
| TickA                                   (* task A wakes up *)
| TickB (currentTickTime : Z)             (* task B wakes up *)
| Key (keyboardKey : Z) (currentTickTime : Z) (userInputAValue : Z).

Section Program.

(** The draws of the C library's random generator, in call order. *)
Variable rand_seq : nat -> Z.

(** [rand()] *)
Definition rand : M Z :=
  fun w => Done (rand_seq (rand_calls w)) (set_rand_calls (S (rand_calls w)) w).

(** [generateIntRandomNumber]: [rand() % max], with C's truncating [%]. *)
Definition generateIntRandomNumber (max : Z) : M Z :=
  r <- rand ;;
  ret (Z.rem r max).

(** The [for] loop of [generateRandomString]: [n] more characters, each
    [charset[rand() % charsetLength]], written at increasing indices. *)
Fixpoint random_chars (charsetLength : Z) (n : nat) : M string :=
  match n with
  | O => ret EmptyString
  | S n' =>
      r <- rand ;;
      let charKey := Z.rem r charsetLength in
      c <- array_read (list_ascii_of_string charset) charKey ;;
      rest <- random_chars charsetLength n' ;;
      ret (String c rest)
  end.

(** [generateRandomString]: the buffer argument is [None] for a null
    pointer, and the result is the buffer after the call. *)
Definition generateRandomString (generatedRandomString : option string)
    (length : Z) : M (option string) :=
  if length =? 0 then ret generatedRandomString
  else match generatedRandomString with
       | None => ret None
       | Some _ =>
           let charsetLength := Z.of_nat (String.length charset) in
           if length <? 0 then raise OutOfBounds
           else
             s <- random_chars charsetLength (Z.to_nat length) ;;
             ret (Some s)
       end.

(** One iteration of the endless loop of [privateTaskA]. *)
Definition privateTaskA_iteration : M unit :=
  r1 <- rand ;;
  let generatedRandomNumber := r1 in
  r2 <- rand ;;
  let generatedRandomNumber :=
    Z.lor (int64 (Z.shiftl generatedRandomNumber 32)) r2 in
  let generatedRandomNumber :=
    int64 (Z.rem generatedRandomNumber 899999999999 + 100000000000) in
  modify (set_currentRandomNumberFromTaskA generatedRandomNumber) ;;;
  configASSERT ((100000000000 <? generatedRandomNumber)
                || (generatedRandomNumber <? 1000000000000)) ;;;
  printf (PrintA generatedRandomNumber).

(** One iteration of the endless loop of [privateTaskB];
    [currentTickTime] is what [xTaskGetTickCount()] returns.  The
    assignment to [stringTime] writes the 4 bytes of the tick count, and
    [strcpy] the characters of the string and a NUL from the first byte
    of [stringPlacer] on. *)
Definition privateTaskB_iteration (currentTickTime : Z) : M unit :=
  buffer <- generateRandomString (Some EmptyString)
                                 NUMBER_OF_ALPHANUMERIC_DIGITS ;;
  let taskBRandomString := default EmptyString buffer in
  randomSlot <- generateIntRandomNumber (SIZE_OF_THE_TASK_B_ARRAY - 1) ;;
  m <- gets taskBStructure_mem ;;
  m1 <- taskB_store m randomSlot offsetof_stringTime
                    (encode_le sizeof_TickType_t currentTickTime) ;;
  m2 <- taskB_store m1 randomSlot offsetof_stringPlacer
                    (list_ascii_of_string taskBRandomString ++ [NUL])%list ;;
  modify (set_taskBStructure_mem m2).

(** The [while (!foundValidValueB)] loop of [handleInterruptC], run for
    at most [fuel] iterations; the result is [randomSlotB]. *)
Fixpoint find_valid_B (fuel : nat) : M Z :=
  match fuel with
  | O => out_of_fuel
  | S fuel' =>
      randomSlotB <- generateIntRandomNumber SIZE_OF_THE_TASK_B_ARRAY ;;
      B <- gets taskBStructure ;;
      b <- array_read B randomSlotB ;;
      if stringTime b =? 0
      then find_valid_B fuel'   (* slot not populated: draw again *)
      else ret randomSlotB
  end.

(** [writeToFileE].  The disk is the pair of [E_txt] and
    [disk_writable].  When the probing [fopen("E.txt", "r")] finds no
    file, the [else] branch calls [fclose] on the null pointer it
    returned. *)
Definition writeToFileE (slotToWrite : Z) : M unit :=
  existing <- gets E_txt ;;                       (* fopen("E.txt", "r") *)
  n <- gets fileELineNumber ;;
  writable <- gets disk_writable ;;
  kept <- match existing with
          | Some old =>
              if negb (n =? 0)
              then ret old               (* fclose; fopen("E.txt", "a") *)
              else ret []                (* fclose; fopen("E.txt", "w") *)
          | None => raise NullFile       (* fclose(NULL) *)
          end ;;
  (if writable then modify (set_E_txt (Some kept)) else ret tt) ;;;
  configASSERT writable ;;;                   (* fileE != NULL *)
  F <- gets valueEStructure ;;
  e <- array_read F slotToWrite ;;
  modify (set_E_txt (Some (kept ++
    [mk_line n (stringTime (randomValueB e)) (stringPlacer (randomValueB e))
             (randomNumberTime (currentValueD e))
             (randomNumber (currentValueD e))])%list)) ;;;
  modify (set_fileELineNumber (int32 (n + 1))).

(** [handleInterruptC]; [currentTickTime] is what [xTaskGetTickCount()]
    returns.  [strcpy] reads the string of the chosen slot out of the
    bytes of [taskBStructure], up to the first NUL, which must come
    before the end of the array, and the copy must end before
    [currentValueD].  The four assignments to
    [valueEStructure[randomSlotF]] are one write of the whole
    structure. *)
Definition handleInterruptC (fuel : nat) (currentTickTime : Z) : M unit :=
  a <- gets currentRandomNumberFromTaskA ;;
  let valueDStructure := mk_valueD currentTickTime a in
  randomSlotB <- find_valid_B fuel ;;
  randomSlotF <- generateIntRandomNumber (SIZE_OF_VALUE_E_STRUCTURE - 1) ;;
  B <- gets taskBStructure ;;
  b <- array_read B randomSlotB ;;
  m <- gets taskBStructure_mem ;;
  (if terminated (drop (sizeof_taskBStructure_t * Z.to_nat randomSlotB
                        + offsetof_stringPlacer) m)
      && (String.length (stringPlacer b) <=? valueE_string_room)%nat
   then ret tt else raise OutOfBounds) ;;;
  F <- gets valueEStructure ;;
  F' <- array_write F randomSlotF
          (mk_valueE (mk_taskB (stringTime b) (stringPlacer b))
                     valueDStructure) ;;
  modify (set_valueEStructure F') ;;;
  writeToFileE randomSlotF.

(** The [for] loop of [handleInterruptG], with [n] iterations left and
    the loop variable at [i]; the result is [userInputFound]. *)
Fixpoint scan_F (n : nat) (i : Z) (userInputAValue : Z)
    (userInputFound : bool) : M bool :=
  match n with
  | O => ret userInputFound
  | S n' =>
      F <- gets valueEStructure ;;
      e <- array_read F i ;;
      found <- (if userInputAValue =? randomNumber (currentValueD e)
                then printf (ValueFound (stringTime (randomValueB e))
                                        (stringPlacer (randomValueB e))) ;;;
                     ret true
                else ret userInputFound) ;;
      scan_F n' (i + 1) userInputAValue found
  end.

(** [handleInterruptG]; [userInputAValue] is what [scanf] reads. *)
Definition handleInterruptG (userInputAValue : Z) : M unit :=
  modify (set_taskA_suspended true) ;;;        (* vTaskSuspend *)
  printf PromptCode ;;;
  userInputFound <- scan_F (Z.to_nat (SIZE_OF_VALUE_E_STRUCTURE - 1)) 0
                           userInputAValue false ;;
  (if userInputFound then ret tt
   else printf (ValueNotFound userInputAValue)) ;;;
  modify (set_taskA_suspended false).          (* vTaskResume *)

(** The [switch] of [keyboardTrackTask] on the key that [_getch()]
    returned. *)
Definition keyboardTrackTask_key (fuel : nat) (keyboardKey : Z)
    (currentTickTime : Z) (userInputAValue : Z) : M unit :=
  if (keyboardKey =? 67) || (keyboardKey =? 99)
  then handleInterruptC fuel currentTickTime
  else if (keyboardKey =? 71) || (keyboardKey =? 103)
  then handleInterruptG userInputAValue
  else ret tt.

Definition step (fuel : nat) (e : event) : M unit :=
  match e with
  | TickA =>
      suspended <- gets taskA_suspended ;;
      if suspended then ret tt else privateTaskA_iteration
  | TickB t => privateTaskB_iteration t
  | Key k t v => keyboardTrackTask_key fuel k t v
  end.

(** A run of the program: the events in order. *)
Fixpoint run (fuel : nat) (es : list event) : M unit :=
  match es with
  | [] => ret tt
  | e :: es' => step fuel e ;;; run fuel es'
  end.

End Program.

(** ** Vocabulary of the statements *)

(** The arrays have the sizes of their declarations. *)
Definition arrays_declared (w : World) : Prop :=
  length (taskBStructure w) = Z.to_nat SIZE_OF_THE_TASK_B_ARRAY /\
  length (valueEStructure w) = Z.to_nat SIZE_OF_VALUE_E_STRUCTURE.

(** The test of the [if] in the loop of [handleInterruptG], and the line
    it prints for a slot that passes it. *)
Definition matches (userInputAValue : Z) (e : valueE_t) : bool :=
  userInputAValue =? randomNumber (currentValueD e).

Definition found_line (e : valueE_t) : console_line :=
  ValueFound (stringTime (randomValueB e)) (stringPlacer (randomValueB e)).

(** The lines a scan of the slots [l] prints, in order. *)
Definition scan_lines (userInputAValue : Z) (l : list valueE_t)
  : list console_line :=
  map found_line (List.filter (matches userInputAValue) l).

(** The lines [handleInterruptG] prints after the prompt: the scan of the
    slots below [SIZE_OF_VALUE_E_STRUCTURE - 1], then the not-found line
    when none passed the test. *)
Definition lookup_lines (userInputAValue : Z) (F : list valueE_t)
  : list console_line :=
  let scanned := take (Z.to_nat (SIZE_OF_VALUE_E_STRUCTURE - 1)) F in
  (scan_lines userInputAValue scanned
   ++ if existsb (matches userInputAValue) scanned then []
      else [ValueNotFound userInputAValue])%list.

(** The record a capture stores: the chosen B entry with value D. *)
Definition captured (w : World) (currentTickTime : Z)
    (b : taskBStructure_t) : valueE_t :=
  mk_valueE b (mk_valueD currentTickTime (currentRandomNumberFromTaskA w)).

(** The line [writeToFileE] prints for the record [e] at line number [n]. *)
Definition line_of (n : Z) (e : valueE_t) : log_line :=
  mk_line n (stringTime (randomValueB e)) (stringPlacer (randomValueB e))
          (randomNumberTime (currentValueD e)) (randomNumber (currentValueD e)).

(** What [writeToFileE] finds in the file it opens. *)
Definition kept_lines (w : World) : list log_line :=
  if bool_decide (is_Some (E_txt w)) && negb (fileELineNumber w =? 0)
  then default [] (E_txt w) else [].

(** The lines of [E.txt] carry the numbers 0, 1, ... up to the line
    number counter, once a line has been written in this run. *)
Definition log_numbered (w : World) : Prop :=
  0 <= fileELineNumber w /\
  (fileELineNumber w <> 0 ->
   exists lines, E_txt w = Some lines /\
                 map line_number lines = seqZ 0 (fileELineNumber w)).

(** The bytes of [taskBStructure] after the two writes of an iteration
    of task B into [slot]: the tick count at the start of the slot, then
    the string and its NUL from the fourth byte of the slot on. *)
Definition taskB_stored (m : list ascii) (slot : nat) (t : Z)
    (token : string) : list ascii :=
  mem_write
    (mem_write m (sizeof_taskBStructure_t * slot + offsetof_stringTime)
               (encode_le sizeof_TickType_t t))
    (sizeof_taskBStructure_t * slot + offsetof_stringPlacer)
    (list_ascii_of_string token ++ [NUL]).

(** A tick count with its lowest byte set to 0. *)
Definition low_byte_cleared (t : Z) : Z := t - t mod 256.

(** ** Sample data *)

(** A sequence of draws within MSVC's [RAND_MAX] of 32767. *)
Definition sample_draws (n : nat) : Z := (Z.of_nat n * 7919 + 13) mod 32768.

(** The program right after [main_payrange], with no [E.txt] on disk. *)
Definition fresh_world : World := main_payrange (boot None true).

Definition empty_B : taskBStructure_t := mk_taskB 0 "".
Definition empty_E : valueE_t := mk_valueE empty_B (mk_valueD 0 0).

(** Task B has written slot 2 at tick 10 and task A has published
    555555555555; [E.txt] exists and is empty. *)
Definition one_token_world : World :=
  set_currentRandomNumberFromTaskA 555555555555
    (set_taskBStructure_mem
       (taskB_stored (taskBStructure_mem fresh_world) 2 10 "Ab12xyzQ")
       (main_payrange (boot (Some []) true))).


(** List F holds the same number twice, paired with two B entries. *)
Definition duplicate_world : World :=
  set_valueEStructure
    [mk_valueE (mk_taskB 10 "aaaaaaaa") (mk_valueD 20 555555555555);
     mk_valueE (mk_taskB 15 "bbbbbbbb") (mk_valueD 21 555555555555);
     empty_E; empty_E; empty_E; empty_E; empty_E]
    fresh_world.

(** Task B has written slot 0 at tick 10 and then slot 1 at tick
    5000. *)
Definition overrun_world : World :=
  set_taskBStructure_mem
    (taskB_stored
       (taskB_stored (taskBStructure_mem fresh_world) 0 10 "abcdefgh")
       1 5000 "ijklmnop")
    (main_payrange (boot (Some []) true)).

(** Task B has written slot 3 at tick 10 over a slot 4 that held tick
    count 5000. *)
Definition slot_3_world : World :=
  set_taskBStructure_mem
    (taskB_stored
       (mem_write (taskBStructure_mem fresh_world) 48
                  (encode_le sizeof_TickType_t 5000))
       3 10 "abcdefgh")
    fresh_world.

(** A second run of the program: [E.txt] holds a line of the run
    before. *)
Definition rerun_world : World := boot (Some [mk_line 5 1 "old" 2 3]) true.

(** A tick of each task, then the keys c, C and g. *)
Definition sample_run : list event :=
  [TickA; TickB 10; Key 99 20 0; Key 67 30 0; Key 71 40 155834582780].

(** ** Vocabulary of the run properties *)

(** The keys c and C, and the events that are such a key press. *)
Definition is_capture_key (keyboardKey : Z) : bool :=
  (keyboardKey =? 67) || (keyboardKey =? 99).

Definition is_capture (e : event) : bool :=
  match e with
  | Key k _ _ => is_capture_key k
  | _ => false
  end.

(** The number of capture key presses among the events. *)
Definition captures (es : list event) : nat :=
  length (List.filter is_capture es).

(** The events that can populate a slot of B for the capture: an
    iteration of task B at a tick count other than 0. *)
Definition populates (e : event) : bool :=
  match e with
  | TickB t => negb (t =? 0)
  | _ => false
  end.

(** A string of 8 characters of [charset]. *)
Definition alphanumeric8 (s : string) : Prop :=
  String.length s = 8%nat /\
  Forall (fun c => c ∈ list_ascii_of_string charset) (list_ascii_of_string s).




(** The largest and smallest numbers task A can publish. *)
Definition published (v : Z) : Prop := 100000000000 <= v <= 999999999998.

(** What an event that returned has done to the globals and the disk,
    by kind of event; proved of [step] in [step_effect_of_step]. *)
Inductive step_effect : event -> World -> World -> Prop :=
| effect_none (e : event) (w w' : World) :
    is_capture e = false ->
    currentRandomNumberFromTaskA w' = currentRandomNumberFromTaskA w ->
    taskBStructure_mem w' = taskBStructure_mem w ->
    valueEStructure w' = valueEStructure w ->
    fileELineNumber w' = fileELineNumber w ->
    E_txt w' = E_txt w ->
    disk_writable w' = disk_writable w ->
    step_effect e w w'
| effect_taskA (w w' : World) :
    published (currentRandomNumberFromTaskA w') ->
    taskBStructure_mem w' = taskBStructure_mem w ->
    valueEStructure w' = valueEStructure w ->
    fileELineNumber w' = fileELineNumber w ->
    E_txt w' = E_txt w ->
    disk_writable w' = disk_writable w ->
    step_effect TickA w w'
| effect_taskB (t : Z) (w w' : World) (slot : nat) (token : string) :
    (slot < 4)%nat ->
    alphanumeric8 token ->
    currentRandomNumberFromTaskA w' = currentRandomNumberFromTaskA w ->
    taskBStructure_mem w' = taskB_stored (taskBStructure_mem w) slot t token ->
    valueEStructure w' = valueEStructure w ->
    fileELineNumber w' = fileELineNumber w ->
    E_txt w' = E_txt w ->
    disk_writable w' = disk_writable w ->
    step_effect (TickB t) w w'
| effect_capture (k t v : Z) (w w' : World) (slotF : nat)
    (b : taskBStructure_t) :
    is_capture_key k = true ->
    b ∈ taskBStructure w ->
    stringTime b <> 0 ->
    (String.length (stringPlacer b) <= valueE_string_room)%nat ->
    (slotF < 6)%nat ->
    currentRandomNumberFromTaskA w' = currentRandomNumberFromTaskA w ->
    taskBStructure_mem w' = taskBStructure_mem w ->
    valueEStructure w' = <[slotF := captured w t b]> (valueEStructure w) ->
    fileELineNumber w' = int32 (fileELineNumber w + 1) ->
    E_txt w' = Some (kept_lines w
                     ++ [line_of (fileELineNumber w) (captured w t b)])%list ->
    disk_writable w' = disk_writable w ->
    step_effect (Key k t v) w w'.

(** ** Sample data of the run properties *)

(** List F of [duplicate_world] in the middle of a run: one line
    logged so far. *)
Definition logged_world : World :=
  set_fileELineNumber 1
    (set_E_txt (Some [mk_line 0 10 "aaaaaaaa" 20 555555555555])
               duplicate_world).


(** Task B runs at tick count 0, then the key c. *)
Definition early_run : list event := [TickA; TickB 0; Key 99 20 0].

(** * Properties *)

(** ** Machine integers *)

Lemma wrap_signed_small (w z : Z) :
  0 < w -> - 2 ^ (w - 1) <= z < 2 ^ (w - 1) -> wrap_signed w z = z.
Proof.
  intros Hw Hz. unfold wrap_signed.
  assert (Hpow : 2 ^ w = 2 * 2 ^ (w - 1)).
  { replace w with (Z.succ (w - 1)) at 1 by lia. apply Z.pow_succ_r. lia. }
  rewrite Z.mod_small; lia.
Qed.

Lemma int64_small (z : Z) :
  - 9223372036854775808 <= z < 9223372036854775808 -> int64 z = z.
Proof. intros Hz. apply wrap_signed_small; [lia | exact Hz]. Qed.

Lemma int32_small (z : Z) : - 2147483648 <= z < 2147483648 -> int32 z = z.
Proof. intros Hz. apply wrap_signed_small; [lia | exact Hz]. Qed.

(** C's [%] on a non-negative left operand. *)
Lemma rem_nonneg_bound (r max : Z) :
  0 <= r -> 0 < max -> 0 <= Z.rem r max < max.
Proof. intros Hr Hmax. apply Z.rem_bound_pos; assumption. Qed.

Lemma sample_draws_range (n : nat) : 0 <= sample_draws n <= 32767.
Proof.
  unfold sample_draws.
  pose proof (Z.mod_pos_bound (Z.of_nat n * 7919 + 13) 32768). lia.
Qed.

(** ** Arrays *)

Lemma array_read_Done {A} (a : list A) (i : Z) (w : World) :
  0 <= i < Z.of_nat (length a) ->
  exists x, a !! Z.to_nat i = Some x /\ array_read a i w = Done x w.
Proof.
  intros Hi. unfold array_read.
  destruct (i <? 0) eqn:Hneg; [apply Z.ltb_lt in Hneg; lia |].
  destruct (lookup_lt_is_Some_2 a (Z.to_nat i)) as [x Hx]; [lia |].
  exists x. rewrite Hx. split; reflexivity.
Qed.

Lemma array_read_inv {A} (a : list A) (i : Z) (w w' : World) (x : A) :
  array_read a i w = Done x w' ->
  0 <= i /\ a !! Z.to_nat i = Some x /\ w' = w.
Proof.
  unfold array_read. destruct (i <? 0) eqn:Hneg; [discriminate |].
  apply Z.ltb_ge in Hneg.
  destruct (a !! Z.to_nat i) as [y|]; [| discriminate].
  unfold ret. intros [= -> ->]. auto.
Qed.

Lemma array_write_Done {A} (a : list A) (i : Z) (v : A) (w : World) :
  0 <= i < Z.of_nat (length a) ->
  array_write a i v w = Done (<[Z.to_nat i := v]> a) w.
Proof.
  intros Hi. unfold array_write.
  destruct (i <? 0) eqn:Hneg; [apply Z.ltb_lt in Hneg; lia |].
  destruct (Z.to_nat i <? length a)%nat eqn:Hlt; [reflexivity |].
  apply Nat.ltb_ge in Hlt. lia.
Qed.

Lemma array_write_inv {A} (a a' : list A) (i : Z) (v : A) (w w' : World) :
  array_write a i v w = Done a' w' ->
  0 <= i < Z.of_nat (length a) /\ a' = <[Z.to_nat i := v]> a /\ w' = w.
Proof.
  unfold array_write. destruct (i <? 0) eqn:Hneg; [discriminate |].
  apply Z.ltb_ge in Hneg.
  destruct (Z.to_nat i <? length a)%nat eqn:Hlt; [| discriminate].
  apply Nat.ltb_lt in Hlt. unfold ret. intros [= <- <-].
  repeat split; [assumption | lia].
Qed.

(** ** The monad *)

Lemma bind_Done {A B} (c : M A) (k : A -> M B) (w w'' : World) (b : B) :
  bind c k w = Done b w'' ->
  exists a w', c w = Done a w' /\ k a w' = Done b w''.
Proof.
  unfold bind. destruct (c w) as [a w'| |]; [| discriminate | discriminate].
  intros Hk. exists a, w'. auto.
Qed.

(** ** Bytes and the memory of [taskBStructure] *)

Lemma Z_of_byte_range (c : ascii) : 0 <= Z_of_byte c < 256.
Proof.
  unfold Z_of_byte. pose proof (N_ascii_bounded c). lia.
Qed.

Lemma Z_of_byte_of_Z (z : Z) : Z_of_byte (byte_of_Z z) = z mod 256.
Proof.
  unfold Z_of_byte, byte_of_Z.
  pose proof (Z.mod_pos_bound z 256 ltac:(lia)) as Hz.
  rewrite N_ascii_embedding by lia. lia.
Qed.

Lemma decode_le_nonneg (l : list ascii) : 0 <= decode_le l.
Proof.
  induction l as [| c l IH]; cbn [decode_le]; [lia |].
  pose proof (Z_of_byte_range c). lia.
Qed.

Lemma length_encode_le (n : nat) (z : Z) : length (encode_le n z) = n.
Proof. revert z. induction n as [| n IH]; intros z; cbn; [| rewrite IH]; reflexivity. Qed.

(** Reading back an unsigned integer of [n] bytes gives the number that
    was assigned, reduced to [n] bytes. *)
Lemma decode_encode_le (n : nat) (z : Z) :
  decode_le (encode_le n z) = z mod 256 ^ Z.of_nat n.
Proof.
  revert z. induction n as [| n IH]; intros z.
  - cbn. rewrite Z.mod_1_r. reflexivity.
  - cbn [encode_le decode_le]. rewrite Z_of_byte_of_Z, IH.
    rewrite Nat2Z.inj_succ, Z.pow_succ_r by lia.
    rewrite Z.rem_mul_r; [reflexivity | lia |].
    apply Z.pow_pos_nonneg; lia.
Qed.

Lemma decode_TickType_t (t : Z) :
  0 <= t < 4294967296 -> decode_le (encode_le sizeof_TickType_t t) = t.
Proof.
  intros Ht. rewrite decode_encode_le.
  change (256 ^ Z.of_nat sizeof_TickType_t) with 4294967296.
  apply Z.mod_small. exact Ht.
Qed.

(** A read of 4 bytes whose first is [NUL]: the number with its lowest
    byte cleared. *)
Lemma decode_le_low_byte (c : ascii) (l : list ascii) :
  decode_le (NUL :: l) = low_byte_cleared (decode_le (c :: l)).
Proof.
  unfold low_byte_cleared. cbn [decode_le].
  change (Z_of_byte NUL) with 0.
  pose proof (Z_of_byte_range c) as Hc.
  pose proof (decode_le_nonneg l) as Hl.
  pose proof (Z.div_mod (Z_of_byte c + 256 * decode_le l) 256 ltac:(lia)).
  pose proof (Z.mod_pos_bound (Z_of_byte c + 256 * decode_le l) 256
                ltac:(lia)).
  lia.
Qed.

(** A string without NUL followed by a NUL reads back as it is. *)
Lemma c_string_terminated (K rest : list ascii) :
  Forall (fun c => c <> NUL) K ->
  c_string (K ++ NUL :: rest) = string_of_list_ascii K.
Proof.
  induction 1 as [| c K Hc _ IH]; [reflexivity |].
  cbn. apply Ascii.eqb_neq in Hc. rewrite Hc, IH. reflexivity.
Qed.

Lemma terminated_token (K rest : list ascii) :
  terminated (K ++ NUL :: rest) = true.
Proof.
  unfold terminated. apply existsb_exists. exists NUL.
  split; [apply in_or_app; right; left; reflexivity | reflexivity].
Qed.

Lemma charset_has_no_NUL :
  Forall (fun c => c <> NUL) (list_ascii_of_string charset).
Proof.
  apply Forall_forall. intros c Hc Heq. subst c.
  apply list_elem_of_In in Hc. revert Hc.
  generalize (eq_refl : existsb (fun c => Ascii.eqb c NUL)
                                (list_ascii_of_string charset) = false).
  intros Hno Hin.
  assert (Hyes : existsb (fun c => Ascii.eqb c NUL)
                         (list_ascii_of_string charset) = true).
  { apply existsb_exists. exists NUL. split; [exact Hin | reflexivity]. }
  congruence.
Qed.

Lemma length_list_ascii_of_string (s : string) :
  length (list_ascii_of_string s) = String.length s.
Proof. induction s as [| c s IH]; cbn; [reflexivity | rewrite IH; reflexivity]. Qed.


Lemma length_5_slots (n : nat) : (n / 12 = 5)%nat <-> (60 <= n < 72)%nat.
Proof.
  split.
  - intros H. pose proof (Nat.div_mod_eq n 12).
    pose proof (Nat.mod_upper_bound n 12). lia.
  - intros H. symmetry. apply (Nat.div_unique n 12 5 (n - 60)); lia.
Qed.

Lemma lookup_map {A B} (f : A -> B) (l : list A) (i : nat) :
  map f l !! i = f <$> (l !! i).
Proof.
  revert i. induction l as [| x l IH]; intros [| i]; cbn; auto.
Qed.

(** The array that the code reads has one structure for every 12 bytes. *)
Lemma taskBStructure_length (w : World) :
  length (taskBStructure w) = 5%nat <->
  (60 <= length (taskBStructure_mem w) < 72)%nat.
Proof.
  unfold taskBStructure. rewrite length_map, length_seq.
  apply length_5_slots.
Qed.

Lemma taskBStructure_lookup (w : World) (i : nat) :
  length (taskBStructure w) = 5%nat ->
  (i < 5)%nat ->
  taskBStructure w !! i = Some (taskB_at (taskBStructure_mem w) i).
Proof.
  intros HB Hi. unfold taskBStructure in *.
  rewrite length_map, length_seq in HB.
  rewrite lookup_map, HB, lookup_seq_lt by lia. reflexivity.
Qed.

Lemma taskBStructure_lookup_Some (w : World) (i : nat) (b : taskBStructure_t) :
  length (taskBStructure w) = 5%nat ->
  taskBStructure w !! i = Some b ->
  (i < 5)%nat /\ b = taskB_at (taskBStructure_mem w) i.
Proof.
  intros HB Hb. assert (Hi : (i < 5)%nat).
  { apply lookup_lt_Some in Hb. lia. }
  rewrite (taskBStructure_lookup w i HB Hi) in Hb. injection Hb as <-. auto.
Qed.

(** *** The two writes of task B *)

Section Stored.

Variables (m : list ascii) (slot : nat) (t : Z) (token : string).
Hypothesis room : (12 * slot + 13 <= length m)%nat.
Hypothesis token_length : String.length token = 8%nat.

(** The bytes after the writes: 13 bytes from the start of the slot
    are replaced, one more than the 12 of the slot. *)
Lemma taskB_stored_bytes :
  taskB_stored m slot t token
  = (take (12 * slot) m ++ encode_le 4 t ++ list_ascii_of_string token
     ++ NUL :: drop (12 * slot + 13) m)%list.
Proof.
  unfold taskB_stored, mem_write.
  change sizeof_taskBStructure_t with 12%nat.
  change offsetof_stringTime with 0%nat.
  change offsetof_stringPlacer with 4%nat.
  change sizeof_TickType_t with 4%nat.
  rewrite Nat.add_0_r, length_encode_le, length_app,
    length_list_ascii_of_string, token_length.
  cbn [length].
  set (A := take (12 * slot) m).
  assert (HA : length A = (12 * slot)%nat) by (apply length_take_le; lia).
  rewrite (app_assoc A).
  rewrite (take_app_length' (A ++ encode_le 4 t)) by
    (rewrite length_app, length_encode_le; lia).
  rewrite (drop_app_ge (A ++ encode_le 4 t)) by
    (rewrite length_app, length_encode_le; lia).
  rewrite length_app, length_encode_le, HA, drop_drop.
  rewrite <- !app_assoc. cbn [app].
  replace (12 * slot + 4 + (12 * slot + 4 + (8 + 1) - (12 * slot + 4)))%nat
    with (12 * slot + 13)%nat by lia.
  reflexivity.
Qed.

Lemma length_taskB_stored : length (taskB_stored m slot t token) = length m.
Proof.
  rewrite taskB_stored_bytes.
  rewrite !length_app, length_encode_le, length_list_ascii_of_string,
    token_length.
  cbn [length]. rewrite length_take_le, length_drop by lia. lia.
Qed.

(** The bytes before the slot and those from the fourteenth on are as
    before. *)
Lemma taskB_stored_lookup (i : nat) :
  (i < 12 * slot \/ 12 * slot + 13 <= i)%nat ->
  taskB_stored m slot t token !! i = m !! i.
Proof.
  intros Hi. rewrite taskB_stored_bytes.
  assert (HA : length (take (12 * slot) m) = (12 * slot)%nat)
    by (apply length_take_le; lia).
  destruct Hi as [Hi | Hi].
  - rewrite lookup_app_l by lia. apply lookup_take_lt. exact Hi.
  - rewrite lookup_app_r by lia. rewrite HA.
    rewrite lookup_app_r by (rewrite length_encode_le; lia).
    rewrite length_encode_le.
    rewrite lookup_app_r by (rewrite length_list_ascii_of_string; lia).
    rewrite length_list_ascii_of_string, token_length.
    replace (i - 12 * slot - 4 - 8)%nat with (S (i - (12 * slot + 13)))
      by lia.
    change (?x :: ?l) with ([x] ++ l)%list.
    rewrite lookup_app_r by (cbn; lia). cbn [length].
    rewrite lookup_drop. f_equal. lia.
Qed.

Lemma drop_taskB_stored_slot :
  drop (12 * slot) (taskB_stored m slot t token)
  = (encode_le 4 t ++ list_ascii_of_string token
     ++ NUL :: drop (12 * slot + 13) m)%list.
Proof.
  rewrite taskB_stored_bytes. apply drop_app_length'.
  symmetry. apply length_take_le. lia.
Qed.

Lemma drop_taskB_stored_after (a : nat) :
  (12 * slot + 13 <= a)%nat ->
  drop a (taskB_stored m slot t token) = drop a m.
Proof.
  intros Ha. rewrite taskB_stored_bytes.
  assert (HA : length (take (12 * slot) m) = (12 * slot)%nat)
    by (apply length_take_le; lia).
  rewrite drop_app_ge by lia. rewrite HA.
  rewrite drop_app_ge by (rewrite length_encode_le; lia).
  rewrite length_encode_le.
  rewrite drop_app_ge by (rewrite length_list_ascii_of_string; lia).
  rewrite length_list_ascii_of_string, token_length.
  replace (a - 12 * slot - 4 - 8)%nat with (S (a - (12 * slot + 13))) by lia.
  cbn [drop skipn]. rewrite drop_drop. f_equal. lia.
Qed.

(** The slot that was written reads back with the tick count (as a
    [TickType_t]) and, right after the write, with the string. *)
Lemma taskB_at_stored :
  Forall (fun c => c <> NUL) (list_ascii_of_string token) ->
  taskB_at (taskB_stored m slot t token) slot
  = mk_taskB (t mod 4294967296) token.
Proof.
  intros Hchars. unfold taskB_at.
  change sizeof_taskBStructure_t with 12%nat.
  change offsetof_stringTime with 0%nat.
  change offsetof_stringPlacer with 4%nat.
  change sizeof_TickType_t with 4%nat.
  rewrite drop_taskB_stored_slot, drop_0.
  rewrite (take_app_length' (encode_le 4 t)) by
    (rewrite length_encode_le; reflexivity).
  rewrite (drop_app_length' (encode_le 4 t)) by
    (rewrite length_encode_le; reflexivity).
  rewrite decode_encode_le, c_string_terminated by exact Hchars.
  rewrite string_of_list_ascii_of_string. reflexivity.
Qed.

(** The slot after it keeps its string, and its tick count loses its
    lowest byte to the NUL of the string. *)
Lemma taskB_at_stored_next :
  taskB_at (taskB_stored m slot t token) (S slot)
  = mk_taskB (low_byte_cleared (stringTime (taskB_at m (S slot))))
             (stringPlacer (taskB_at m (S slot))).
Proof.
  unfold taskB_at.
  change sizeof_taskBStructure_t with 12%nat.
  change offsetof_stringTime with 0%nat.
  change offsetof_stringPlacer with 4%nat.
  change sizeof_TickType_t with 4%nat.
  cbn [stringTime stringPlacer].
  replace (12 * S slot)%nat with (12 * slot + 12)%nat by lia.
  rewrite !drop_0.
  rewrite <- (drop_drop (taskB_stored m slot t token) 12 (12 * slot)).
  rewrite drop_taskB_stored_slot.
  rewrite (drop_app_ge (encode_le 4 t)) by (rewrite length_encode_le; lia).
  rewrite length_encode_le. change (12 - 4)%nat with 8%nat.
  rewrite (drop_app_length' (list_ascii_of_string token)) by
    (rewrite length_list_ascii_of_string, token_length; reflexivity).
  destruct (lookup_lt_is_Some_2 m (12 * slot + 12)) as [c Hc]; [lia |].
  rewrite (drop_S m c (12 * slot + 12) Hc).
  replace (S (12 * slot + 12)) with (12 * slot + 13)%nat by lia.
  rewrite !firstn_cons, !skipn_cons.
  rewrite (decode_le_low_byte c). reflexivity.
Qed.

(** The slots further on are as before. *)
Lemma taskB_at_stored_after (j : nat) :
  (S slot < j)%nat ->
  taskB_at (taskB_stored m slot t token) j = taskB_at m j.
Proof.
  intros Hj. unfold taskB_at.
  rewrite drop_taskB_stored_after
    by (change sizeof_taskBStructure_t with 12%nat; lia).
  reflexivity.
Qed.

(** The slots before it keep their tick counts. *)
Lemma stringTime_stored_before (j : nat) :
  (j < slot)%nat ->
  stringTime (taskB_at (taskB_stored m slot t token) j)
  = stringTime (taskB_at m j).
Proof.
  intros Hj. unfold taskB_at.
  change sizeof_taskBStructure_t with 12%nat.
  change offsetof_stringTime with 0%nat.
  change sizeof_TickType_t with 4%nat.
  cbn [stringTime]. rewrite !drop_0. f_equal.
  rewrite !take_drop_commute. f_equal.
  rewrite taskB_stored_bytes.
  assert (HA : length (take (12 * slot) m) = (12 * slot)%nat)
    by (apply length_take_le; lia).
  rewrite take_app_le by lia.
  rewrite take_take. f_equal. lia.
Qed.



End Stored.


(** *** From the bytes of a slot to what the code reads in it *)



Lemma alphanumeric8_no_NUL (token : string) :
  alphanumeric8 token ->
  Forall (fun c => c <> NUL) (list_ascii_of_string token).
Proof.
  intros [_ Hchars]. apply Forall_forall. intros c Hc.
  apply (proj1 (Forall_forall _ _) Hchars) in Hc.
  exact (proj1 (Forall_forall _ _) charset_has_no_NUL c Hc).
Qed.




Section Properties.

(** [RAND_MAX] is a macro of the C library; all the program relies on
    is that [rand()] returns an [int] between 0 and [RAND_MAX]. *)
Variable RAND_MAX : Z.
Variable rand_seq : nat -> Z.
Hypothesis RAND_MAX_is_int : RAND_MAX <= INT_MAX.
Hypothesis rand_range : forall n, 0 <= rand_seq n <= RAND_MAX.

Lemma privateTaskA_value_range (r1 r2 : Z) :
  0 <= r1 <= INT_MAX -> 0 <= r2 <= INT_MAX ->
  100000000000 <=
    int64 (Z.rem (Z.lor (int64 (Z.shiftl r1 32)) r2) 899999999999
           + 100000000000)
  <= 999999999999.
Proof.
  unfold INT_MAX. intros Hr1 Hr2.
  rewrite Z.shiftl_mul_pow2 by lia.
  change (2 ^ 32) with 4294967296.
  rewrite (int64_small (r1 * 4294967296)) by lia.
  assert (Hlor : 0 <= Z.lor (r1 * 4294967296) r2).
  { apply Z.lor_nonneg. lia. }
  pose proof (rem_nonneg_bound _ 899999999999 Hlor ltac:(lia)) as Hrem.
  rewrite int64_small; lia.
Qed.

(** What one iteration of task A does to the world. *)
Lemma privateTaskA_iteration_spec (w : World) :
  let r1 := rand_seq (rand_calls w) in
  let r2 := rand_seq (S (rand_calls w)) in
  let v := int64 (Z.rem (Z.lor (int64 (Z.shiftl r1 32)) r2) 899999999999
                  + 100000000000) in
  privateTaskA_iteration rand_seq w
  = Done tt (set_console (console w ++ [PrintA v])%list
               (set_currentRandomNumberFromTaskA v
                  (set_rand_calls (S (S (rand_calls w))) w))).
Proof.
  intros r1 r2 v.
  pose proof (rand_range (rand_calls w)) as H1.
  pose proof (rand_range (S (rand_calls w))) as H2.
  pose proof (privateTaskA_value_range r1 r2 ltac:(lia) ltac:(lia)) as Hv.
  fold v in Hv.
  unfold privateTaskA_iteration, bind, rand, modify, printf, configASSERT.
  cbn [rand_calls set_rand_calls]. fold r1 r2 v.
  assert (Hassert : (100000000000 <? v) || (v <? 1000000000000) = true).
  { apply orb_true_iff. right. apply Z.ltb_lt. lia. }
  rewrite Hassert. reflexivity.
Qed.

(** C6: every iteration of task A completes and publishes, in
    [currentRandomNumberFromTaskA] and on the console, a value in the
    inclusive range from 100000000000 to 999999999999, that is a number
    of exactly 12 decimal digits. *)
Theorem privateTaskA_publishes_12_digits (w : World) :
  exists w',
    privateTaskA_iteration rand_seq w = Done tt w' /\
    100000000000 <= currentRandomNumberFromTaskA w' <= 999999999999 /\
    console w' = (console w ++ [PrintA (currentRandomNumberFromTaskA w')])%list.
Proof.
  pose proof (rand_range (rand_calls w)) as H1.
  pose proof (rand_range (S (rand_calls w))) as H2.
  eexists. split; [apply privateTaskA_iteration_spec |].
  cbn [currentRandomNumberFromTaskA console set_console
       set_currentRandomNumberFromTaskA].
  split; [| reflexivity].
  apply privateTaskA_value_range; lia.
Qed.

(** *** Task B *)

Lemma charset_length : length (list_ascii_of_string charset) = 62%nat.
Proof. reflexivity. Qed.

(** The loop of [generateRandomString] consumes [n] draws and builds a
    string of [n] characters, the [i]-th one picked out of [charset] by
    the [i]-th draw. *)
Lemma random_chars_spec (n : nat) (w : World) :
  exists s,
    random_chars rand_seq 62 n w
      = Done s (set_rand_calls (rand_calls w + n) w) /\
    String.length s = n /\
    forall i, (i < n)%nat ->
      list_ascii_of_string s !! i
      = list_ascii_of_string charset
          !! Z.to_nat (Z.rem (rand_seq (rand_calls w + i)) 62).
Proof.
  revert w. induction n as [| n IH]; intros w.
  - exists EmptyString. cbn. unfold ret.
    rewrite Nat.add_0_r. destruct w; cbn. repeat split. lia.
  - pose proof (rand_range (rand_calls w)) as Hr.
    pose proof (rem_nonneg_bound (rand_seq (rand_calls w)) 62
                  ltac:(lia) ltac:(lia)) as Hkey.
    destruct (array_read_Done (list_ascii_of_string charset)
                (Z.rem (rand_seq (rand_calls w)) 62)
                (set_rand_calls (S (rand_calls w)) w)) as (c & Hc & Hread).
    { rewrite charset_length. lia. }
    destruct (IH (set_rand_calls (S (rand_calls w)) w)) as (s & Hs & Hlen & Hget).
    exists (String c s). split; [| split].
    + cbn [random_chars]. unfold bind at 1. unfold rand at 1.
      unfold bind at 1. rewrite Hread.
      unfold bind at 1. rewrite Hs. unfold ret. cbn.
      rewrite Nat.add_succ_r. reflexivity.
    + cbn. rewrite Hlen. reflexivity.
    + intros [| i] Hi.
      * cbn [list_ascii_of_string]. rewrite Nat.add_0_r.
        rewrite Hc. reflexivity.
      * cbn [list_ascii_of_string]. rewrite lookup_cons.
        rewrite Hget by lia. cbn [rand_calls set_rand_calls].
        rewrite Nat.add_succ_r. reflexivity.
Qed.

(** What one iteration of task B does to the world: nine draws are
    consumed, eight for the string and one for the slot, and the slot
    [rand() % 4] receives the new string and the tick count. *)
Lemma length_mem_write (m : list ascii) (address : nat) (bytes : list ascii) :
  (address + length bytes <= length m)%nat ->
  length (mem_write m address bytes) = length m.
Proof.
  intros Hroom. unfold mem_write.
  rewrite !length_app, length_take_le, length_drop by lia. lia.
Qed.

(** What one iteration of task B does to the world: nine draws are
    consumed, eight for the string and one for the slot, and the bytes
    of the slot [rand() % 4] receive the tick count, the string and its
    NUL. *)
Lemma privateTaskB_iteration_spec (currentTickTime : Z) (w : World) :
  length (taskBStructure w) = 5%nat ->
  exists token : string,
    let slot := Z.to_nat (Z.rem (rand_seq (rand_calls w + 8)) 4) in
    privateTaskB_iteration rand_seq currentTickTime w
      = Done tt (set_taskBStructure_mem
                   (taskB_stored (taskBStructure_mem w) slot
                                 currentTickTime token)
                   (set_rand_calls (rand_calls w + 9) w)) /\
    (slot < 4)%nat /\
    String.length token = 8%nat /\
    forall i, (i < 8)%nat ->
      list_ascii_of_string token !! i
      = list_ascii_of_string charset
          !! Z.to_nat (Z.rem (rand_seq (rand_calls w + i)) 62).
Proof.
  intros HB. apply taskBStructure_length in HB.
  destruct (random_chars_spec 8 w) as (token & Hrun & Hlen & Hget).
  pose proof (rand_range (rand_calls w + 8)) as Hr.
  pose proof (rem_nonneg_bound (rand_seq (rand_calls w + 8)) 4
                ltac:(lia) ltac:(lia)) as Hslot.
  exists token. cbn zeta. split; [| split; [lia | split; assumption]].
  unfold privateTaskB_iteration, generateRandomString.
  change (NUMBER_OF_ALPHANUMERIC_DIGITS =? 0) with false.
  change (NUMBER_OF_ALPHANUMERIC_DIGITS <? 0) with false.
  change (Z.of_nat (String.length charset)) with 62.
  change (Z.to_nat NUMBER_OF_ALPHANUMERIC_DIGITS) with 8%nat.
  cbn iota.
  unfold bind at 1. unfold bind at 1. rewrite Hrun. unfold ret at 1.
  cbn [default from_option id].
  unfold generateIntRandomNumber, bind at 1 2, rand, ret at 1.
  unfold bind at 1, gets.
  cbn [rand_calls set_rand_calls taskBStructure_mem].
  change (SIZE_OF_THE_TASK_B_ARRAY - 1) with 4.
  set (z := Z.rem (rand_seq (rand_calls w + 8)) 4) in *.
  set (m := taskBStructure_mem w) in *.
  unfold taskB_store.
  change sizeof_taskBStructure_t with 12%nat.
  change offsetof_stringTime with 0%nat.
  change offsetof_stringPlacer with 4%nat.
  destruct (z <? 0) eqn:Hneg; [apply Z.ltb_lt in Hneg; lia |].
  assert (H1 : (12 * (Z.to_nat z + 1) <=? length m)%nat = true)
    by (apply Nat.leb_le; lia).
  assert (H2 : (12 * Z.to_nat z + 0 + length (encode_le sizeof_TickType_t
                                                 currentTickTime)
                <=? length m)%nat = true)
    by (apply Nat.leb_le; rewrite length_encode_le;
        change sizeof_TickType_t with 4%nat; lia).
  unfold bind at 1. rewrite H1, H2. unfold ret at 1.
  set (m1 := mem_write m _ _).
  assert (Hm1 : length m1 = length m).
  { apply length_mem_write. rewrite length_encode_le.
    change sizeof_TickType_t with 4%nat. lia. }
  assert (H3 : (12 * (Z.to_nat z + 1) <=? length m1)%nat = true)
    by (apply Nat.leb_le; lia).
  assert (H4 : (12 * Z.to_nat z + 4
                + length (list_ascii_of_string token ++ [NUL])
                <=? length m1)%nat = true).
  { apply Nat.leb_le.
    rewrite length_app, length_list_ascii_of_string, Hlen, Hm1.
    cbn [length]. lia. }
  unfold bind at 1. rewrite H3, H4. unfold ret at 1.
  unfold modify. f_equal.
  unfold set_taskBStructure_mem, set_rand_calls. cbn. f_equal. lia.
Qed.

(** The string that task B made holds no NUL. *)
Lemma token_has_no_NUL (token : string) (key : nat -> nat) :
  (forall i, (i < String.length token)%nat ->
     list_ascii_of_string token !! i = list_ascii_of_string charset !! key i) ->
  Forall (fun c => c <> NUL) (list_ascii_of_string token).
Proof.
  intros Hget. apply Forall_lookup_2. intros i c Hc.
  assert (Hi : (i < String.length token)%nat).
  { apply lookup_lt_Some in Hc.
    rewrite length_list_ascii_of_string in Hc. exact Hc. }
  rewrite (Hget i Hi) in Hc.
  exact (proj1 (Forall_lookup _ _) charset_has_no_NUL _ _ Hc).
Qed.

(** A string whose characters are all read out of [charset]. *)
Lemma drawn_chars_in_charset (s : string) (key : nat -> nat) :
  (forall i, (i < String.length s)%nat ->
     list_ascii_of_string s !! i = list_ascii_of_string charset !! key i) ->
  Forall (fun c => c ∈ list_ascii_of_string charset) (list_ascii_of_string s).
Proof.
  intros Hget. apply Forall_lookup_2. intros i c Hc.
  assert (Hi : (i < String.length s)%nat).
  { apply lookup_lt_Some in Hc.
    rewrite length_list_ascii_of_string in Hc. exact Hc. }
  rewrite (Hget i Hi) in Hc. eapply list_elem_of_lookup_2. exact Hc.
Qed.

(** C2: an iteration of task B completes and writes the slot
    [rand() % 4], an index below 4: that slot then holds the tick count
    and the new string, and slot 4, the last of the five slots of
    [taskBStructure], is never the one written: its bytes from the
    second on (the upper bytes of its [stringTime] and its
    [stringPlacer]) are as before. *)
Theorem privateTaskB_never_writes_slot_4 (currentTickTime : Z) (w : World) :
  length (taskBStructure w) = 5%nat ->
  exists w' slot token,
    privateTaskB_iteration rand_seq currentTickTime w = Done tt w' /\
    (slot < 4)%nat /\
    taskBStructure w' !! slot
      = Some (mk_taskB (currentTickTime mod 4294967296) token) /\
    forall i, (12 * 4 < i)%nat ->
      taskBStructure_mem w' !! i = taskBStructure_mem w !! i.
Proof.
  intros HB.
  destruct (privateTaskB_iteration_spec currentTickTime w HB)
    as (token & Hrun & Hslot & Hlen & Hget).
  cbn zeta in Hrun, Hslot.
  set (slot := Z.to_nat (Z.rem (rand_seq (rand_calls w + 8)) 4)) in *.
  pose proof (proj1 (taskBStructure_length w) HB) as Hm.
  assert (Hroom : (12 * slot + 13 <= length (taskBStructure_mem w))%nat)
    by lia.
  eexists _, slot, token. split; [exact Hrun |].
  split; [exact Hslot |]. split.
  - rewrite taskBStructure_lookup; [| | lia].
    + cbn [taskBStructure_mem set_taskBStructure_mem set_rand_calls].
      rewrite taskB_at_stored; try assumption; [reflexivity |].
      apply (token_has_no_NUL token
               (fun i => Z.to_nat (Z.rem (rand_seq (rand_calls w + i)) 62))).
      intros i Hi. apply Hget. lia.
    + apply taskBStructure_length.
      cbn [taskBStructure_mem set_taskBStructure_mem set_rand_calls].
      rewrite length_taskB_stored by assumption. exact Hm.
  - intros i Hi.
    cbn [taskBStructure_mem set_taskBStructure_mem set_rand_calls].
    apply taskB_stored_lookup; try assumption. lia.
Qed.

(** C7: the string that an iteration of task B makes and stores has
    8 characters of [charset], one for each of its first eight draws:
    with its NUL it is 9 bytes long, more than the 7 bytes of
    [taskBRandomString] and the 8 bytes of [stringPlacer].  The slot
    reads back with the 8 characters right after the write, the NUL
    lies on the first byte of the slot that follows, and that slot's
    tick count has lost its lowest byte. *)
Theorem privateTaskB_token_overruns_stringPlacer
    (currentTickTime : Z) (w : World) :
  length (taskBStructure w) = 5%nat ->
  exists w' slot token,
    privateTaskB_iteration rand_seq currentTickTime w = Done tt w' /\
    taskBStructure w' !! slot
      = Some (mk_taskB (currentTickTime mod 4294967296) token) /\
    String.length token = Z.to_nat NUMBER_OF_ALPHANUMERIC_DIGITS /\
    (forall i, (i < 8)%nat ->
       list_ascii_of_string token !! i
       = list_ascii_of_string charset
           !! Z.to_nat (Z.rem (rand_seq (rand_calls w + i)) 62)) /\
    Forall (fun c => c ∈ list_ascii_of_string charset)
           (list_ascii_of_string token) /\
    sizeof_taskBRandomString < Z.of_nat (String.length token + 1) /\
    (sizeof_stringPlacer < String.length token + 1)%nat /\
    taskBStructure_mem w' !! (sizeof_taskBStructure_t * S slot)%nat
      = Some NUL /\
    exists next,
      taskBStructure w !! S slot = Some next /\
      taskBStructure w' !! S slot
        = Some (mk_taskB (low_byte_cleared (stringTime next))
                         (stringPlacer next)).
Proof.
  intros HB.
  destruct (privateTaskB_iteration_spec currentTickTime w HB)
    as (token & Hrun & Hslot & Hlen & Hget).
  cbn zeta in Hrun, Hslot.
  set (slot := Z.to_nat (Z.rem (rand_seq (rand_calls w + 8)) 4)) in *.
  pose proof (proj1 (taskBStructure_length w) HB) as Hm.
  assert (Hroom : (12 * slot + 13 <= length (taskBStructure_mem w))%nat)
    by lia.
  assert (Hkey : forall i, (i < String.length token)%nat ->
            list_ascii_of_string token !! i
            = list_ascii_of_string charset
                !! Z.to_nat (Z.rem (rand_seq (rand_calls w + i)) 62)).
  { intros i Hi. apply Hget. lia. }
  assert (HB' : length (taskBStructure
                          (set_taskBStructure_mem
                             (taskB_stored (taskBStructure_mem w) slot
                                           currentTickTime token)
                             (set_rand_calls (rand_calls w + 9) w))) = 5%nat).
  { apply taskBStructure_length.
    cbn [taskBStructure_mem set_taskBStructure_mem set_rand_calls].
    rewrite length_taskB_stored by assumption. exact Hm. }
  eexists _, slot, token. split; [exact Hrun |].
  split.
  { rewrite taskBStructure_lookup; [| exact HB' | lia].
    cbn [taskBStructure_mem set_taskBStructure_mem set_rand_calls].
    rewrite taskB_at_stored; try assumption; [reflexivity |].
    exact (token_has_no_NUL token _ Hkey). }
  split; [exact Hlen |]. split; [exact Hget |].
  split; [exact (drawn_chars_in_charset token _ Hkey) |].
  rewrite Hlen. split; [reflexivity |].
  split; [unfold sizeof_stringPlacer; lia |].
  split.
  { cbn [taskBStructure_mem set_taskBStructure_mem set_rand_calls].
    change sizeof_taskBStructure_t with 12%nat.
    rewrite taskB_stored_bytes by assumption.
    rewrite lookup_app_r by (rewrite length_take_le; lia).
    rewrite length_take_le by lia.
    rewrite lookup_app_r by (rewrite length_encode_le; lia).
    rewrite length_encode_le.
    rewrite lookup_app_r by (rewrite length_list_ascii_of_string; lia).
    rewrite length_list_ascii_of_string, Hlen.
    replace (12 * S slot - 12 * slot - 4 - 8)%nat with 0%nat by lia.
    reflexivity. }
  exists (taskB_at (taskBStructure_mem w) (S slot)).
  split; [apply taskBStructure_lookup; [exact HB | lia] |].
  rewrite taskBStructure_lookup; [| exact HB' | lia].
  cbn [taskBStructure_mem set_taskBStructure_mem set_rand_calls].
  rewrite taskB_at_stored_next by assumption. reflexivity.
Qed.

(** *** The capture handler *)

(** One sampling attempt of the loop of [handleInterruptC]: the slot
    [rand() % 5] is taken exactly when its [stringTime] is not 0. *)
Lemma find_valid_B_attempt (fuel : nat) (w : World) :
  length (taskBStructure w) = 5%nat ->
  let slot := Z.rem (rand_seq (rand_calls w)) 5 in
  let w1 := set_rand_calls (S (rand_calls w)) w in
  exists b,
    0 <= slot < 5 /\
    taskBStructure w !! Z.to_nat slot = Some b /\
    find_valid_B rand_seq (S fuel) w
      = if stringTime b =? 0 then find_valid_B rand_seq fuel w1
        else Done slot w1.
Proof.
  intros HB slot w1.
  pose proof (rand_range (rand_calls w)) as Hr.
  pose proof (rem_nonneg_bound (rand_seq (rand_calls w)) 5
                ltac:(lia) ltac:(lia)) as Hslot.
  destruct (array_read_Done (taskBStructure w) slot w1) as (b & Hb & Hread).
  { rewrite HB. subst slot. lia. }
  exists b. split; [exact Hslot |]. split; [exact Hb |].
  cbn [find_valid_B].
  unfold generateIntRandomNumber, bind at 1 2, rand, ret at 1.
  unfold bind at 1, gets. fold w1.
  change (taskBStructure w1) with (taskBStructure w).
  change SIZE_OF_THE_TASK_B_ARRAY with 5. fold slot.
  unfold bind at 1. rewrite Hread.
  destruct (stringTime b =? 0); reflexivity.
Qed.

(** When the loop ends, it ends on a slot whose [stringTime] is not 0,
    after one draw per iteration. *)
Lemma find_valid_B_Done (fuel : nat) (w w' : World) (randomSlotB : Z) :
  length (taskBStructure w) = 5%nat ->
  find_valid_B rand_seq fuel w = Done randomSlotB w' ->
  exists b k,
    0 <= randomSlotB < 5 /\
    taskBStructure w !! Z.to_nat randomSlotB = Some b /\
    stringTime b <> 0 /\
    (k < fuel)%nat /\
    w' = set_rand_calls (rand_calls w + S k) w.
Proof.
  revert w. induction fuel as [| fuel IH]; intros w HB Hrun.
  - discriminate.
  - destruct (find_valid_B_attempt fuel w HB) as (b & Hslot & Hb & Heq).
    rewrite Heq in Hrun. clear Heq.
    destruct (stringTime b =? 0) eqn:Hzero.
    + destruct (IH (set_rand_calls (S (rand_calls w)) w) HB Hrun)
        as (b' & k & H1 & H2 & H3 & H4 & H5).
      exists b', (S k). repeat split; try assumption; try lia.
      rewrite H5. unfold set_rand_calls. cbn. f_equal. lia.
    + injection Hrun as <- <-. apply Z.eqb_neq in Hzero.
      exists b, 0%nat. repeat split; try assumption; try lia.
      rewrite Nat.add_1_r. reflexivity.
Qed.

(** With no populated slot, the loop uses up any bound. *)
Lemma find_valid_B_empty (fuel : nat) (w : World) :
  length (taskBStructure w) = 5%nat ->
  (forall b, b ∈ taskBStructure w -> stringTime b = 0) ->
  find_valid_B rand_seq fuel w = OutOfFuel.
Proof.
  revert w. induction fuel as [| fuel IH]; intros w HB Hempty.
  - reflexivity.
  - destruct (find_valid_B_attempt fuel w HB) as (b & Hslot & Hb & Heq).
    rewrite Heq. apply list_elem_of_lookup_2 in Hb.
    rewrite (Hempty b Hb). cbn. apply IH; assumption.
Qed.

(** The loop ends at the first draw that lands on a populated slot. *)
Lemma find_valid_B_terminates (k : nat) (w : World) (b : taskBStructure_t) :
  length (taskBStructure w) = 5%nat ->
  taskBStructure w !! Z.to_nat (Z.rem (rand_seq (rand_calls w + k)) 5)
    = Some b ->
  stringTime b <> 0 ->
  forall fuel, (k < fuel)%nat ->
  exists randomSlotB w', find_valid_B rand_seq fuel w = Done randomSlotB w'.
Proof.
  revert w. induction k as [| k IH]; intros w HB Hb Hocc fuel Hfuel.
  - destruct fuel as [| fuel]; [lia |].
    destruct (find_valid_B_attempt fuel w HB) as (b0 & _ & Hb0 & Heq).
    rewrite Nat.add_0_r in Hb. rewrite Hb in Hb0. injection Hb0 as <-.
    rewrite Heq. apply Z.eqb_neq in Hocc. rewrite Hocc. eauto.
  - destruct fuel as [| fuel]; [lia |].
    destruct (find_valid_B_attempt fuel w HB) as (b0 & _ & Hb0 & Heq).
    rewrite Heq. destruct (stringTime b0 =? 0); [| eauto].
    apply IH; [exact HB | | exact Hocc | lia].
    cbn [taskBStructure set_rand_calls rand_calls].
    rewrite <- Hb. do 4 f_equal. lia.
Qed.

(** What a call of [writeToFileE] that returns has done. *)
(** With [E.txt] on the disk, the lines that [writeToFileE] finds in
    the file it opens. *)
Lemma kept_lines_existing (w : World) (old : list log_line) :
  E_txt w = Some old ->
  kept_lines w = if fileELineNumber w =? 0 then [] else old.
Proof.
  intros HE. unfold kept_lines. rewrite HE.
  rewrite bool_decide_eq_true_2 by eauto.
  destruct (fileELineNumber w =? 0); reflexivity.
Qed.

(** What a call of [writeToFileE] that returns has done; it returns
    only when [E.txt] was there. *)
Lemma writeToFileE_Done (slotToWrite : Z) (w w' : World) :
  writeToFileE slotToWrite w = Done tt w' ->
  exists e,
    (disk_writable w = true /\ is_Some (E_txt w)) /\
    0 <= slotToWrite /\
    valueEStructure w !! Z.to_nat slotToWrite = Some e /\
    w' = set_fileELineNumber (int32 (fileELineNumber w + 1))
           (set_E_txt (Some (kept_lines w
                               ++ [line_of (fileELineNumber w) e])%list) w).
Proof.
  unfold writeToFileE, bind at 1 2 3, gets.
  destruct (E_txt w) as [old |] eqn:HE; [| discriminate].
  rewrite (kept_lines_existing w old HE).
  unfold bind at 1.
  assert (Hkept : (if negb (fileELineNumber w =? 0) then ret old else ret [])
                    w
                  = Done (if fileELineNumber w =? 0 then [] else old) w).
  { destruct (fileELineNumber w =? 0); reflexivity. }
  rewrite Hkept. clear Hkept.
  destruct (disk_writable w) eqn:Hdisk; [| discriminate].
  unfold bind at 1 2, modify at 1, configASSERT, ret at 1.
  unfold bind at 1, gets. cbn [valueEStructure set_E_txt].
  intros Hrun. apply bind_Done in Hrun as (e & w1 & Hread & Hrest).
  apply array_read_inv in Hread as (Hslot & He & ->).
  exists e. split; [split; [reflexivity | eauto] |].
  split; [exact Hslot |]. split; [exact He |].
  unfold bind, modify in Hrest. injection Hrest as <-. reflexivity.
Qed.

(** [writeToFileE] returns when [E.txt] exists, the disk accepts the
    write and the slot is one of the array. *)
Lemma writeToFileE_spec (slotToWrite : Z) (w : World) (e : valueE_t)
    (old : list log_line) :
  E_txt w = Some old ->
  disk_writable w = true ->
  0 <= slotToWrite ->
  valueEStructure w !! Z.to_nat slotToWrite = Some e ->
  writeToFileE slotToWrite w
    = Done tt (set_fileELineNumber (int32 (fileELineNumber w + 1))
                 (set_E_txt (Some (kept_lines w
                                     ++ [line_of (fileELineNumber w) e])%list)
                            w)).
Proof.
  intros HE Hdisk Hslot He.
  rewrite (kept_lines_existing w old HE).
  unfold writeToFileE, bind at 1 2 3, gets. rewrite HE.
  unfold bind at 1.
  assert (Hkept : (if negb (fileELineNumber w =? 0) then ret old else ret [])
                    w
                  = Done (if fileELineNumber w =? 0 then [] else old) w).
  { destruct (fileELineNumber w =? 0); reflexivity. }
  rewrite Hkept. clear Hkept. rewrite Hdisk.
  unfold bind at 1 2, modify at 1, configASSERT, ret at 1.
  unfold bind at 1, gets. cbn [valueEStructure set_E_txt].
  unfold bind at 1, array_read.
  destruct (slotToWrite <? 0) eqn:Hneg; [apply Z.ltb_lt in Hneg; lia |].
  rewrite He. reflexivity.
Qed.

(** Without [E.txt] on the disk [writeToFileE] does not return: it
    stops at the [fclose] of the null pointer. *)
Lemma writeToFileE_no_file (slotToWrite : Z) (w : World) :
  E_txt w = None -> writeToFileE slotToWrite w = Fault NullFile.
Proof.
  intros HE. unfold writeToFileE, bind at 1 2 3, gets. rewrite HE.
  reflexivity.
Qed.

(** What a capture that returns has done: it chose a populated slot of
    B after [k] rejected draws, stored the pair in slot [rand() % 6] of
    F and appended it to [E.txt], which was there. *)
Lemma handleInterruptC_Done (fuel : nat) (currentTickTime : Z)
    (w w' : World) :
  length (taskBStructure w) = 5%nat ->
  handleInterruptC rand_seq fuel currentTickTime w = Done tt w' ->
  exists (randomSlotB randomSlotF : nat) (b : taskBStructure_t) (k : nat),
    let w1 := set_valueEStructure
                (<[randomSlotF := captured w currentTickTime b]>
                   (valueEStructure w))
                (set_rand_calls (rand_calls w + S (S k)) w) in
    (randomSlotB < 5)%nat /\
    taskBStructure w !! randomSlotB = Some b /\
    stringTime b <> 0 /\
    (k < fuel)%nat /\
    randomSlotF = Z.to_nat (Z.rem (rand_seq (rand_calls w + S k)) 6) /\
    (randomSlotF < 6)%nat /\
    (randomSlotF < length (valueEStructure w))%nat /\
    (disk_writable w = true /\ is_Some (E_txt w) /\
     (String.length (stringPlacer b) <= valueE_string_room)%nat) /\
    w' = set_fileELineNumber (int32 (fileELineNumber w + 1))
           (set_E_txt
              (Some (kept_lines w
                       ++ [line_of (fileELineNumber w)
                                   (captured w currentTickTime b)])%list)
              w1).
Proof.
  intros HB Hrun. unfold handleInterruptC in Hrun.
  unfold bind at 1, gets in Hrun.
  apply bind_Done in Hrun as (slotB & w1 & Hfind & Hrun).
  destruct (find_valid_B_Done _ _ _ _ HB Hfind)
    as (b & k & HslotB & Hb & Hocc & Hk & ->).
  unfold generateIntRandomNumber, bind at 1 2, rand, ret at 1 in Hrun.
  unfold bind at 1, gets in Hrun.
  cbn [rand_calls set_rand_calls] in Hrun.
  apply bind_Done in Hrun as (b' & w2 & Hread & Hrun).
  apply array_read_inv in Hread as (_ & Hb' & ->).
  change (taskBStructure (set_rand_calls _ (set_rand_calls _ w)))
    with (taskBStructure w) in Hb'.
  rewrite Hb in Hb'. injection Hb' as <-.
  unfold bind at 1, gets in Hrun.
  cbn [taskBStructure_mem set_rand_calls] in Hrun.
  unfold bind at 1 in Hrun.
  destruct (terminated _ && (String.length (stringPlacer b)
                             <=? valueE_string_room)%nat) eqn:Hfits;
    [| discriminate].
  apply andb_true_iff in Hfits as [_ Hfits]. apply Nat.leb_le in Hfits.
  unfold ret at 1 in Hrun.
  unfold bind at 1, gets in Hrun. cbn [valueEStructure set_rand_calls] in Hrun.
  apply bind_Done in Hrun as (F' & w3 & Hwrite & Hrun).
  apply array_write_inv in Hwrite as (HslotF & -> & ->).
  unfold bind at 1, modify in Hrun.
  apply writeToFileE_Done in Hrun as (e & [Hdisk HE] & _ & He & ->).
  cbn [valueEStructure set_valueEStructure] in He.
  rewrite list_lookup_insert_eq in He by lia. injection He as <-.
  change (SIZE_OF_VALUE_E_STRUCTURE - 1) with 6 in *.
  pose proof (rand_range (rand_calls w + S k)) as Hr.
  pose proof (rem_nonneg_bound (rand_seq (rand_calls w + S k)) 6
                ltac:(lia) ltac:(lia)) as Hrem.
  exists (Z.to_nat slotB),
         (Z.to_nat (Z.rem (rand_seq (rand_calls w + S k)) 6)), b, k.
  cbn [disk_writable E_txt set_valueEStructure set_rand_calls]
    in Hdisk, HE.
  cbn zeta. repeat split; try assumption; try lia.
  unfold captured, kept_lines. destruct b as [t s0]. cbn.
  do 2 f_equal. unfold set_valueEStructure, set_rand_calls. cbn.
  f_equal. lia.
Qed.

(** *** The lookup handler *)

Lemma scan_lines_app (q : Z) (l1 l2 : list valueE_t) :
  scan_lines q (l1 ++ l2) = (scan_lines q l1 ++ scan_lines q l2)%list.
Proof. unfold scan_lines. rewrite List.filter_app. apply map_app. Qed.

Lemma scan_lines_cons (q : Z) (e : valueE_t) (l : list valueE_t) :
  scan_lines q (e :: l)
  = if matches q e then found_line e :: scan_lines q l else scan_lines q l.
Proof. unfold scan_lines. cbn. destruct (matches q e); reflexivity. Qed.



Lemma existsb_matches (q : Z) (l : list valueE_t) (e : valueE_t) :
  e ∈ l -> randomNumber (currentValueD e) = q ->
  existsb (matches q) l = true.
Proof.
  intros He Hq. apply existsb_exists. exists e.
  split; [apply list_elem_of_In; exact He |].
  unfold matches. apply Z.eqb_eq. auto.
Qed.

(** The loop of [handleInterruptG], started at index [i] with [n]
    iterations to go, prints one line per slot of [i .. i+n-1] whose
    number is the queried one, in index order. *)
Lemma scan_F_spec (q : Z) (n : nat) :
  forall (i : nat) (found : bool) (w : World),
    (i + n <= length (valueEStructure w))%nat ->
    scan_F n (Z.of_nat i) q found w
    = Done (found || existsb (matches q)
                             (take n (drop i (valueEStructure w))))
           (set_console
              (console w
               ++ scan_lines q (take n (drop i (valueEStructure w))))%list
              w).
Proof.
  induction n as [| n IH]; intros i found w Hlen.
  - cbn. unfold ret. rewrite orb_false_r, app_nil_r.
    destruct w; reflexivity.
  - destruct (lookup_lt_is_Some_2 (valueEStructure w) i) as [e He]; [lia |].
    rewrite (drop_S _ _ _ He). cbn [take existsb].
    rewrite scan_lines_cons.
    cbn [scan_F]. unfold bind at 1, gets. unfold bind at 1, array_read.
    destruct (Z.of_nat i <? 0) eqn:Hneg; [apply Z.ltb_lt in Hneg; lia |].
    rewrite Nat2Z.id, He. unfold ret at 1.
    replace (Z.of_nat i + 1) with (Z.of_nat (S i)) by lia.
    fold (matches q e). destruct (matches q e).
    + unfold bind at 1 2, printf, modify, ret at 1.
      rewrite IH by (cbn; lia). cbn [valueEStructure console set_console].
      rewrite orb_true_r. rewrite <- app_assoc. reflexivity.
    + unfold bind at 1, ret at 1. rewrite IH by lia. reflexivity.
Qed.

(** [handleInterruptG] always returns: it prints the prompt and the
    lines of [lookup_lines], and leaves task A resumed. *)
Lemma handleInterruptG_spec (q : Z) (w : World) :
  (6 <= length (valueEStructure w))%nat ->
  handleInterruptG q w
  = Done tt (set_taskA_suspended false
               (set_console
                  (console w
                   ++ PromptCode :: lookup_lines q (valueEStructure w))%list
                  w)).
Proof.
  intros Hlen. unfold handleInterruptG.
  unfold bind at 1 2, modify at 1, printf at 1, modify at 1.
  unfold bind at 1.
  change (Z.to_nat (SIZE_OF_VALUE_E_STRUCTURE - 1)) with 6%nat.
  rewrite (scan_F_spec q 6 0 false) by (cbn; lia).
  cbn [orb valueEStructure console set_console set_taskA_suspended].
  change (drop 0 (valueEStructure w)) with (valueEStructure w).
  unfold lookup_lines.
  change (Z.to_nat (SIZE_OF_VALUE_E_STRUCTURE - 1)) with 6%nat.
  destruct (existsb (matches q) (take 6 (valueEStructure w))).
  - unfold bind, ret, modify, set_taskA_suspended, set_console. cbn.
    rewrite app_nil_r, <- app_assoc. reflexivity.
  - unfold bind, printf, modify, set_taskA_suspended, set_console. cbn.
    rewrite <- !app_assoc. reflexivity.
Qed.

(** C1: a lookup looks at the slots 0 to 5 of [valueEStructure] only:
    when the queried number is held by slot 6, the last of the seven,
    and by no slot before it, the handler answers "not found". *)
(** *** Events and runs *)

Lemma privateTaskA_value_published (r1 r2 : Z) :
  0 <= r1 <= INT_MAX -> 0 <= r2 <= INT_MAX ->
  published
    (int64 (Z.rem (Z.lor (int64 (Z.shiftl r1 32)) r2) 899999999999
            + 100000000000)).
Proof.
  unfold INT_MAX, published. intros Hr1 Hr2.
  rewrite Z.shiftl_mul_pow2 by lia.
  change (2 ^ 32) with 4294967296.
  rewrite (int64_small (r1 * 4294967296)) by lia.
  assert (Hlor : 0 <= Z.lor (r1 * 4294967296) r2).
  { apply Z.lor_nonneg. lia. }
  pose proof (rem_nonneg_bound _ 899999999999 Hlor ltac:(lia)) as Hrem.
  rewrite int64_small; lia.
Qed.

(** X3: task A never publishes 999999999999: the modulus is
    899999999999, so the numbers it publishes run from 100000000000 to
    999999999998; an iteration changes nothing but the published number,
    the console and the generator, from which it takes two draws. *)

(** An event that returns has one of the four effects of [step_effect],
    and keeps the sizes of the arrays. *)
Lemma step_effect_of_step (fuel : nat) (e : event) (w w' : World) :
  arrays_declared w ->
  step rand_seq fuel e w = Done tt w' ->
  step_effect e w w' /\ arrays_declared w'.
Proof.
  intros [HB HF] Hstep.
  change (Z.to_nat SIZE_OF_THE_TASK_B_ARRAY) with 5%nat in HB.
  change (Z.to_nat SIZE_OF_VALUE_E_STRUCTURE) with 7%nat in HF.
  destruct e as [| t | key t v]; cbn [step] in Hstep.
  - unfold bind, gets in Hstep. destruct (taskA_suspended w).
    + injection Hstep as <-. split; [| split; assumption].
      apply effect_none; reflexivity.
    + rewrite privateTaskA_iteration_spec in Hstep. injection Hstep as <-.
      split; [| split; [exact HB | exact HF]].
      pose proof (rand_range (rand_calls w)) as H1.
      pose proof (rand_range (S (rand_calls w))) as H2.
      apply effect_taskA; try reflexivity. cbn.
      apply privateTaskA_value_published; lia.
  - destruct (privateTaskB_iteration_spec t w HB)
      as (token & Hrun & Hslot & Hlen & Hget).
    cbn zeta in Hrun, Hslot. rewrite Hrun in Hstep. injection Hstep as <-.
    pose proof (proj1 (taskBStructure_length w) HB) as Hm.
    split.
    + eapply effect_taskB; try reflexivity; [exact Hslot |].
      split; [exact Hlen |].
      apply (drawn_chars_in_charset token
               (fun i => Z.to_nat (Z.rem (rand_seq (rand_calls w + i)) 62))).
      intros i Hi. apply Hget. lia.
    + split; [| exact HF].
      apply taskBStructure_length.
      cbn [taskBStructure_mem set_taskBStructure_mem set_rand_calls].
      rewrite length_taskB_stored by lia. exact Hm.
  - unfold keyboardTrackTask_key in Hstep. fold (is_capture_key key) in Hstep.
    destruct (is_capture_key key) eqn:Hkey.
    + destruct (handleInterruptC_Done fuel t w w' HB Hstep)
        as (slotB & slotF & b & k & _ & Hb & Hocc & _ & _ & HslotF & _
            & (_ & _ & Hfits) & ->).
      split.
      * eapply (effect_capture key t v _ _ slotF b); try reflexivity;
          try assumption.
        eapply list_elem_of_lookup_2. exact Hb.
      * split; [exact HB |].
        cbn [valueEStructure set_valueEStructure set_E_txt
             set_fileELineNumber].
        rewrite length_insert. exact HF.
    + destruct ((key =? 71) || (key =? 103)).
      * rewrite handleInterruptG_spec in Hstep by lia.
        injection Hstep as <-. split; [| split; [exact HB | exact HF]].
        apply effect_none; [exact Hkey | reflexivity ..].
      * injection Hstep as <-. split; [| split; assumption].
        apply effect_none; [exact Hkey | reflexivity ..].
Qed.

(** Every event but a capture returns. *)
Lemma step_returns (fuel : nat) (e : event) (w : World) :
  arrays_declared w ->
  is_capture e = false ->
  exists w', step rand_seq fuel e w = Done tt w'.
Proof.
  intros [HB HF] He.
  change (Z.to_nat SIZE_OF_THE_TASK_B_ARRAY) with 5%nat in HB.
  change (Z.to_nat SIZE_OF_VALUE_E_STRUCTURE) with 7%nat in HF.
  destruct e as [| t | key t v]; cbn [step].
  - unfold bind, gets. destruct (taskA_suspended w); [eexists; reflexivity |].
    rewrite privateTaskA_iteration_spec. eexists. reflexivity.
  - destruct (privateTaskB_iteration_spec t w HB) as (token & Hrun & _).
    eexists. exact Hrun.
  - cbn [is_capture] in He. unfold keyboardTrackTask_key.
    fold (is_capture_key key). rewrite He.
    destruct ((key =? 71) || (key =? 103)); [| eexists; reflexivity].
    rewrite handleInterruptG_spec by lia. eexists. reflexivity.
Qed.

(** A property kept by each of the four effects is kept by a run. *)
Lemma run_invariant (P : World -> Prop) (fuel : nat) :
  (forall e w w', arrays_declared w -> P w -> step_effect e w w' -> P w') ->
  forall es w w',
    arrays_declared w -> P w ->
    run rand_seq fuel es w = Done tt w' ->
    arrays_declared w' /\ P w'.
Proof.
  intros Hkeep es. induction es as [| e es IH]; intros w w' Harr HP Hrun.
  - injection Hrun as <-. auto.
  - cbn [run] in Hrun.
    apply bind_Done in Hrun as ([] & w1 & Hstep & Hrun).
    destruct (step_effect_of_step fuel e w w1 Harr Hstep) as [Heff Harr1].
    apply (IH w1 w' Harr1); [| exact Hrun].
    exact (Hkeep e w w1 Harr HP Heff).
Qed.

(** ** The claims *)


Theorem handleInterruptG_reports_every_match
    (userInputAValue : Z) (w : World) (i j : nat) (ei ej : valueE_t) :
  length (valueEStructure w) = 7%nat ->
  (i < j < 6)%nat ->
  valueEStructure w !! i = Some ei ->
  valueEStructure w !! j = Some ej ->
  randomNumber (currentValueD ei) = userInputAValue ->
  randomNumber (currentValueD ej) = userInputAValue ->
  exists w' l1 l2 l3,
    handleInterruptG userInputAValue w = Done tt w' /\
    console w'
    = (console w ++ PromptCode :: l1 ++ found_line ei :: l2
                 ++ found_line ej :: l3)%list.
Proof.
  intros Hlen Hij Hi Hj Hqi Hqj.
  rewrite handleInterruptG_spec by lia.
  set (T := take 6 (valueEStructure w)).
  assert (HTi : T !! i = Some ei) by (apply lookup_take_Some; split; [done | lia]).
  assert (HTj : T !! j = Some ej) by (apply lookup_take_Some; split; [done | lia]).
  assert (HD : drop (S i) T !! (j - S i)%nat = Some ej).
  { rewrite lookup_drop. replace (S i + (j - S i))%nat with j by lia. done. }
  pose proof (take_drop_middle _ _ _ HTi) as Hsplit1.
  pose proof (take_drop_middle _ _ _ HD) as Hsplit2.
  eexists _, (scan_lines userInputAValue (take i T)),
    (scan_lines userInputAValue (take (j - S i) (drop (S i) T))),
    (scan_lines userInputAValue (drop (S (j - S i)) (drop (S i) T))).
  split; [reflexivity |].
  cbn [console set_console set_taskA_suspended]. f_equal. f_equal.
  unfold lookup_lines.
  change (take (Z.to_nat (SIZE_OF_VALUE_E_STRUCTURE - 1)) (valueEStructure w))
    with T.
  rewrite (existsb_matches userInputAValue T ei)
    by (eauto using list_elem_of_lookup_2).
  rewrite app_nil_r.
  rewrite <- Hsplit1 at 1. rewrite scan_lines_app, scan_lines_cons.
  unfold matches at 1. rewrite Hqi, Z.eqb_refl.
  rewrite <- Hsplit2 at 1. rewrite scan_lines_app, scan_lines_cons.
  unfold matches at 1. rewrite Hqj, Z.eqb_refl.
  reflexivity.
Qed.


(** C4, amended: when the [stringTime] of every slot of
    [taskBStructure] is 0, no bound on the sampling attempts lets the
    capture return: every attempt rejects its slot and the loop draws
    again. *)
Theorem handleInterruptC_empty_cache_never_returns
    (fuel : nat) (currentTickTime : Z) (w : World) :
  length (taskBStructure w) = 5%nat ->
  (forall b, b ∈ taskBStructure w -> stringTime b = 0) ->
  handleInterruptC rand_seq fuel currentTickTime w = OutOfFuel.
Proof.
  intros HB Hempty. unfold handleInterruptC, bind at 1, gets.
  unfold bind at 1. rewrite find_valid_B_empty by assumption.
  reflexivity.
Qed.



(** *** The log over a run *)

(** One append keeps the lines numbered from 0 and moves the counter up
    by one. *)
Lemma log_numbered_after_append (w w' : World) (e : valueE_t) :
  log_numbered w ->
  fileELineNumber w < INT_MAX ->
  fileELineNumber w' = int32 (fileELineNumber w + 1) ->
  E_txt w' = Some (kept_lines w ++ [line_of (fileELineNumber w) e])%list ->
  log_numbered w' /\ fileELineNumber w' = fileELineNumber w + 1.
Proof.
  unfold INT_MAX. intros [Hn Hlines] Hmax Hn' HE'.
  assert (Hint : int32 (fileELineNumber w + 1) = fileELineNumber w + 1)
    by (apply int32_small; lia).
  rewrite Hint in Hn'. split; [| exact Hn'].
  unfold log_numbered. rewrite Hn', HE'. split; [lia |].
  intros _. eexists. split; [reflexivity |].
  rewrite map_app. cbn [map line_of line_number].
  rewrite seqZ_app by lia. unfold kept_lines.
  destruct (Z.eq_dec (fileELineNumber w) 0) as [Hz | Hnz].
  - rewrite Hz. cbn [Z.eqb negb]. rewrite andb_false_r. reflexivity.
  - destruct (Hlines Hnz) as (lines & HE & Hnum). rewrite HE.
    apply Z.eqb_neq in Hnz. rewrite Hnz.
    rewrite bool_decide_eq_true_2 by eauto.
    cbn [andb negb default from_option id]. rewrite Hnum.
    reflexivity.
Qed.

(** One event of the scheduler keeps the arrays and the numbering of the
    log, and appends at most one line. *)
Lemma step_keeps_log_numbered (fuel : nat) (e : event) (w w' : World) :
  step rand_seq fuel e w = Done tt w' ->
  arrays_declared w -> log_numbered w ->
  fileELineNumber w < INT_MAX ->
  arrays_declared w' /\ log_numbered w' /\
  fileELineNumber w <= fileELineNumber w' <= fileELineNumber w + 1.
Proof.
  intros Hstep Harr Hlog Hmax.
  destruct (step_effect_of_step fuel e w w' Harr Hstep) as [Heff Harr'].
  split; [exact Harr' |].
  assert (Hsame : fileELineNumber w' = fileELineNumber w ->
                  E_txt w' = E_txt w ->
                  log_numbered w' /\
                  fileELineNumber w <= fileELineNumber w'
                                    <= fileELineNumber w + 1).
  { intros Hn HE. unfold log_numbered. rewrite Hn, HE.
    split; [exact Hlog | lia]. }
  destruct Heff as [e w w' _ _ _ _ Hn HE | w w' _ _ _ Hn HE
                    | t w w' slot token _ _ _ _ _ Hn HE
                    | k t v w w' slotF b _ _ _ _ _ _ _ _ Hn HE]; auto.
  destruct (log_numbered_after_append w w' (captured w t b) Hlog Hmax Hn HE)
    as [Hlog' Hn'].
  split; [exact Hlog' | lia].
Qed.

(** Along a run the lines of the log stay numbered from 0, and the
    counter moves up by at most one per event. *)
Lemma run_keeps_log_numbered (fuel : nat) (es : list event) :
  forall w w' : World,
    run rand_seq fuel es w = Done tt w' ->
    arrays_declared w -> log_numbered w ->
    fileELineNumber w + Z.of_nat (length es) <= INT_MAX ->
    arrays_declared w' /\ log_numbered w' /\
    fileELineNumber w <= fileELineNumber w'
                      <= fileELineNumber w + Z.of_nat (length es).
Proof.
  induction es as [| e es IH]; intros w w' Hrun Harr Hlog Hmax.
  - injection Hrun as <-. cbn [length].
    split; [exact Harr | split; [exact Hlog | lia]].
  - cbn [run] in Hrun. cbn [length] in Hmax.
    apply bind_Done in Hrun as ([] & w1 & Hstep & Hrun).
    destruct (step_keeps_log_numbered fuel e w w1 Hstep Harr Hlog ltac:(lia))
      as (Harr1 & Hlog1 & Hn1).
    destruct (IH w1 w' Hrun Harr1 Hlog1 ltac:(lia)) as (Harr' & Hlog' & Hn').
    cbn [length]. split; [exact Harr' | split; [exact Hlog' | lia]].
Qed.

(** The line counter moves with the captures of a run. *)
Lemma run_counts_captures_from (fuel : nat) (es : list event) :
  forall w w' : World,
    arrays_declared w ->
    0 <= fileELineNumber w ->
    fileELineNumber w + Z.of_nat (captures es) <= INT_MAX ->
    run rand_seq fuel es w = Done tt w' ->
    fileELineNumber w' = fileELineNumber w + Z.of_nat (captures es).
Proof.
  unfold INT_MAX.
  induction es as [| e es IH]; intros w w' Harr Hn Hmax Hrun.
  - injection Hrun as <-. cbn. lia.
  - cbn [run] in Hrun.
    apply bind_Done in Hrun as ([] & w1 & Hstep & Hrun).
    destruct (step_effect_of_step fuel e w w1 Harr Hstep) as [Heff Harr1].
    unfold captures in *. cbn [List.filter] in *.
    destruct Heff as [e w w1 Hcap _ _ _ Hn1 | w w1 _ _ _ Hn1
                      | t w w1 slot token _ _ _ _ _ Hn1
                      | k t v w w1 slotF b Hkey _ _ _ _ _ _ _ Hn1].
    + rewrite Hcap in *. rewrite (IH w1 w' Harr1) by (rewrite ?Hn1; auto; lia).
      lia.
    + cbn [is_capture] in *.
      rewrite (IH w1 w' Harr1) by (rewrite ?Hn1; auto; lia). lia.
    + cbn [is_capture] in *.
      rewrite (IH w1 w' Harr1) by (rewrite ?Hn1; auto; lia). lia.
    + cbn [is_capture] in *. rewrite Hkey in *. cbn [length] in *.
      rewrite int32_small in Hn1 by lia.
      rewrite (IH w1 w' Harr1) by (rewrite ?Hn1; auto; lia). lia.
Qed.

Lemma captures_le_length (es : list event) :
  (captures es <= length es)%nat.
Proof. unfold captures. apply List.filter_length_le. Qed.


(** ** Further properties of the functions *)

(** X1: [generateIntRandomNumber(max)] with a positive [max] consumes
    one draw and returns a number from 0 to [max - 1]; it touches nothing
    else. *)
Theorem generateIntRandomNumber_in_range (max : Z) (w : World) :
  0 < max ->
  exists r,
    generateIntRandomNumber rand_seq max w
      = Done r (set_rand_calls (S (rand_calls w)) w) /\
    0 <= r < max.
Proof.
  intros Hmax. exists (Z.rem (rand_seq (rand_calls w)) max).
  split; [reflexivity |].
  pose proof (rand_range (rand_calls w)) as Hr.
  apply rem_nonneg_bound; lia.
Qed.

(** X2: [generateRandomString] leaves the buffer and the generator alone
    when the length is 0 or the pointer is null; otherwise it replaces
    the content of the buffer, whatever it was, by exactly [length]
    characters of [charset], one draw each. *)
Theorem generateRandomString_fills_buffer
    (buffer : option string) (length : Z) (w : World) :
  0 <= length ->
  (length = 0 \/ buffer = None ->
   generateRandomString rand_seq buffer length w = Done buffer w) /\
  (length <> 0 -> buffer <> None ->
   exists s,
     generateRandomString rand_seq buffer length w
       = Done (Some s) (set_rand_calls (rand_calls w + Z.to_nat length) w) /\
     String.length s = Z.to_nat length /\
     Forall (fun c => c ∈ list_ascii_of_string charset)
            (list_ascii_of_string s)).
Proof.
  intros Hlen. unfold generateRandomString. split.
  - intros [-> | ->]; [reflexivity |].
    destruct (length =? 0); reflexivity.
  - intros Hnz Hbuf. destruct buffer as [old |]; [| congruence].
    apply Z.eqb_neq in Hnz. rewrite Hnz.
    destruct (length <? 0) eqn:Hneg; [apply Z.ltb_lt in Hneg; lia |].
    change (Z.of_nat (String.length charset)) with 62.
    destruct (random_chars_spec (Z.to_nat length) w) as (s & Hrun & Hs & Hget).
    exists s. unfold bind. rewrite Hrun. split; [reflexivity |].
    split; [exact Hs |].
    apply (drawn_chars_in_charset s
             (fun i => Z.to_nat (Z.rem (rand_seq (rand_calls w + i)) 62))).
    intros i Hi. apply Hget. lia.
Qed.

(** X3: task A never publishes 999999999999: the modulus is
    899999999999, so the numbers it publishes run from 100000000000 to
    999999999998; an iteration changes nothing but the published number,
    the console and the generator, from which it takes two draws. *)
Theorem privateTaskA_never_publishes_largest (w : World) :
  exists w',
    privateTaskA_iteration rand_seq w = Done tt w' /\
    100000000000 <= currentRandomNumberFromTaskA w' <= 999999999998 /\
    rand_calls w' = S (S (rand_calls w)) /\
    taskBStructure w' = taskBStructure w /\
    valueEStructure w' = valueEStructure w /\
    fileELineNumber w' = fileELineNumber w /\
    E_txt w' = E_txt w.
Proof.
  pose proof (rand_range (rand_calls w)) as H1.
  pose proof (rand_range (S (rand_calls w))) as H2.
  eexists. split; [apply privateTaskA_iteration_spec |]. cbn.
  split; [apply privateTaskA_value_published; lia |].
  repeat split.
Qed.



(** X7: a lookup only reads: it returns, leaves task A resumed, changes
    none of the globals, the log or the generator, and a second lookup of
    the same number right after it prints the same lines again. *)
Theorem handleInterruptG_only_reads (userInputAValue : Z) (w : World) :
  (6 <= length (valueEStructure w))%nat ->
  exists w' w'' lines,
    handleInterruptG userInputAValue w = Done tt w' /\
    console w' = (console w ++ PromptCode :: lines)%list /\
    taskA_suspended w' = false /\
    valueEStructure w' = valueEStructure w /\
    taskBStructure w' = taskBStructure w /\
    currentRandomNumberFromTaskA w' = currentRandomNumberFromTaskA w /\
    fileELineNumber w' = fileELineNumber w /\
    E_txt w' = E_txt w /\
    rand_calls w' = rand_calls w /\
    handleInterruptG userInputAValue w' = Done tt w'' /\
    console w'' = (console w' ++ PromptCode :: lines)%list.
Proof.
  intros HF. eexists _, _, _.
  split; [apply handleInterruptG_spec; exact HF |]. cbn.
  split; [reflexivity |]. do 7 (split; [reflexivity |]).
  split; [apply handleInterruptG_spec; exact HF |]. reflexivity.
Qed.

(** X8: the lines a lookup prints after the prompt are, in this order
    and each once: the found line of every slot 0 to 5 that holds the
    queried number, by increasing index; or, when none of these slots
    holds it, the not-found line alone. *)
Theorem handleInterruptG_lines_characterised
    (userInputAValue : Z) (w : World) :
  (6 <= length (valueEStructure w))%nat ->
  let hits :=
    List.filter
      (fun e => userInputAValue =? randomNumber (currentValueD e))
      (take 6 (valueEStructure w)) in
  exists w',
    handleInterruptG userInputAValue w = Done tt w' /\
    console w'
    = (console w
       ++ PromptCode
          :: match hits with
             | [] => [ValueNotFound userInputAValue]
             | _ :: _ =>
                 map (fun e => ValueFound (stringTime (randomValueB e))
                                          (stringPlacer (randomValueB e)))
                     hits
             end)%list.
Proof.
  intros HF hits. eexists.
  split; [apply handleInterruptG_spec; exact HF |]. cbn.
  do 2 f_equal. unfold lookup_lines, scan_lines.
  change (Z.to_nat (SIZE_OF_VALUE_E_STRUCTURE - 1)) with 6%nat.
  change (List.filter (matches userInputAValue) (take 6 (valueEStructure w)))
    with hits.
  assert (Hex : existsb (matches userInputAValue) (take 6 (valueEStructure w))
                = match hits with [] => false | _ :: _ => true end).
  { unfold hits. generalize (take 6 (valueEStructure w)). intros l.
    induction l as [| e l IH]; [reflexivity |]. cbn.
    fold (matches userInputAValue e).
    destruct (matches userInputAValue e); [reflexivity | exact IH]. }
  rewrite Hex. destruct hits; [reflexivity |]. apply app_nil_r.
Qed.

(** X10: within a run (line counter not 0) and with [E.txt] on the
    disk, [writeToFileE] keeps what the file holds and adds one line
    after it, numbered by the counter; list F and the console are
    unchanged. *)
Theorem writeToFileE_appends_within_a_run
    (slotToWrite : Z) (w : World) (e : valueE_t) (old : list log_line) :
  fileELineNumber w <> 0 ->
  E_txt w = Some old ->
  disk_writable w = true ->
  0 <= slotToWrite ->
  valueEStructure w !! Z.to_nat slotToWrite = Some e ->
  exists w',
    writeToFileE slotToWrite w = Done tt w' /\
    E_txt w' = Some (old ++ [line_of (fileELineNumber w) e])%list /\
    fileELineNumber w' = int32 (fileELineNumber w + 1) /\
    valueEStructure w' = valueEStructure w /\
    console w' = console w.
Proof.
  intros Hn HE Hdisk Hslot He. eexists.
  split; [apply (writeToFileE_spec slotToWrite w e old HE Hdisk Hslot He) |].
  cbn. split; [| repeat split].
  rewrite (kept_lines_existing w old HE).
  apply Z.eqb_neq in Hn. rewrite Hn. reflexivity.
Qed.

(** X9: without [E.txt] on the disk no line is ever logged:
    [writeToFileE] stops at the [fclose] of the null pointer that the
    probing [fopen] returned, and no capture returns, whatever the bound
    on its sampling loop. *)
Theorem writeToFileE_needs_the_file
    (slotToWrite : Z) (fuel : nat) (currentTickTime : Z) (w : World) :
  E_txt w = None ->
  length (taskBStructure w) = 5%nat ->
  writeToFileE slotToWrite w = Fault NullFile /\
  forall w', handleInterruptC rand_seq fuel currentTickTime w <> Done tt w'.
Proof.
  intros HE HB. split; [apply writeToFileE_no_file; exact HE |].
  intros w' Hrun.
  destruct (handleInterruptC_Done fuel currentTickTime w w' HB Hrun)
    as (slotB & slotF & b & k & _ & _ & _ & _ & _ & _ & _
        & (_ & [old Hold] & _) & _).
  congruence.
Qed.

(** ** Properties of runs *)





(** X13: in every run from the start of the program, the published
    number is 0 until task A has run and a number from 100000000000 to
    999999999998 after that, and so is the number of every slot of F: a
    capture made before the first iteration of task A stores 0. *)
Theorem run_keeps_numbers_published
    (old_E_txt : option (list log_line)) (writable : bool)
    (fuel : nat) (es : list event) (w : World) :
  run rand_seq fuel es (main_payrange (boot old_E_txt writable)) = Done tt w ->
  (currentRandomNumberFromTaskA w = 0 \/
   published (currentRandomNumberFromTaskA w)) /\
  (forall i e, valueEStructure w !! i = Some e ->
     randomNumber (currentValueD e) = 0 \/
     published (randomNumber (currentValueD e))).
Proof.
  intros Hrun.
  apply (run_invariant
           (fun w1 =>
              (currentRandomNumberFromTaskA w1 = 0 \/
               published (currentRandomNumberFromTaskA w1)) /\
              (forall i e, valueEStructure w1 !! i = Some e ->
                 randomNumber (currentValueD e) = 0 \/
                 published (randomNumber (currentValueD e))))
           fuel) with (es := es) (w := main_payrange (boot old_E_txt writable));
    [| split; reflexivity | | exact Hrun].
  - clear. intros e w1 w2 _ [HA HF] Heff.
    destruct Heff as [e w1 w2 _ HA' _ HF' | w1 w2 Hpub _ HF'
                      | t w1 w2 slot token _ _ HA' _ HF'
                      | k t v w1 w2 slotF b _ _ _ _ _ HA' _ HF'];
      rewrite HF'; try rewrite HA'; split; auto.
    intros i e He. apply list_lookup_insert_Some in He
      as [(_ & <- & _) | (_ & He)]; [exact HA | eauto].
  - split; [left; reflexivity |].
    intros i e He. left. cbn in He.
    apply list_elem_of_lookup_2 in He.
    repeat (apply elem_of_cons in He as [-> | He]; [reflexivity |]).
    apply elem_of_nil in He. destruct He.
Qed.

(** X14: after a run started by [main_payrange], the line counter is the
    number of c and C key presses of the run, and when there was one,
    [E.txt] holds exactly that many lines. *)
Theorem run_logs_one_line_per_capture
    (fuel : nat) (es : list event) (w0 w : World) :
  arrays_declared w0 ->
  Z.of_nat (length es) <= INT_MAX ->
  run rand_seq fuel es (main_payrange w0) = Done tt w ->
  fileELineNumber w = Z.of_nat (captures es) /\
  (captures es <> 0%nat ->
   exists lines, E_txt w = Some lines /\ length lines = captures es).
Proof.
  intros Harr Hlen Hrun.
  pose proof (captures_le_length es) as Hle.
  assert (Hcount : fileELineNumber w = Z.of_nat (captures es)).
  { rewrite (run_counts_captures_from fuel es (main_payrange w0) w Harr);
      cbn; try lia; exact Hrun. }
  split; [exact Hcount |]. intros Hsome.
  assert (Hlog0 : log_numbered (main_payrange w0)).
  { split; [cbn; lia | intros Hn; cbn in Hn; lia]. }
  destruct (run_keeps_log_numbered fuel es (main_payrange w0) w Hrun
              Harr Hlog0 Hlen) as (_ & [_ Hlines] & _).
  destruct Hlines as (lines & HE & Hnum); [lia |].
  exists lines. split; [exact HE |].
  apply (f_equal length) in Hnum.
  rewrite length_map, length_seqZ, Hcount in Hnum. lia.
Qed.




(** X16: no capture returns before task B has stored a string at a tick
    count other than 0: from a B list whose tick counts are all 0, a run
    with a c or C key press in it, and with iterations of task B only at
    tick count 0, does not come to its end for any bound on the sampling
    loop. *)
Theorem no_capture_before_nonzero_tick
    (fuel : nat) (es : list event) (w : World) :
  arrays_declared w ->
  (forall b, b ∈ taskBStructure w -> stringTime b = 0) ->
  Forall (fun e => populates e = false) es ->
  Exists (fun e => is_capture e = true) es ->
  run rand_seq fuel es w = OutOfFuel.
Proof.
  revert w. induction es as [| e es IH]; intros w Harr Hempty Hpop Hcap.
  - apply Exists_nil in Hcap. destruct Hcap.
  - apply Forall_cons in Hpop as [Hpop_e Hpop].
    cbn [run]. unfold bind.
    destruct (is_capture e) eqn:He.
    + destruct e as [| t | key t v]; try discriminate.
      cbn [is_capture] in He. cbn [step]. unfold keyboardTrackTask_key.
      fold (is_capture_key key). rewrite He.
      unfold handleInterruptC, bind at 1, gets. unfold bind at 1.
      rewrite find_valid_B_empty; [reflexivity | apply Harr | exact Hempty].
    + apply Exists_cons in Hcap as [Hcap | Hcap]; [congruence |].
      destruct (step_returns fuel e w Harr He) as [w1 Hstep].
      rewrite Hstep.
      destruct (step_effect_of_step fuel e w w1 Harr Hstep) as [Heff Harr1].
      apply IH; try assumption.
      destruct Harr as [HB _], Harr1 as [HB1 _].
      change (Z.to_nat SIZE_OF_THE_TASK_B_ARRAY) with 5%nat in HB, HB1.
      destruct Heff as [e w w1 _ _ Hmem | w w1 _ Hmem
                        | t w w1 slot token Hslot Htok _ Hmem
                        | k t v w w1 slotF b Hkey];
        try (unfold taskBStructure in *; rewrite Hmem; assumption).
      * cbn [populates] in Hpop_e. apply negb_false_iff, Z.eqb_eq in Hpop_e.
        subst t. intros b Hb.
        apply list_elem_of_lookup in Hb as (j & Hb).
        apply (taskBStructure_lookup_Some w1 j b HB1) in Hb as [Hj ->].
        pose proof (proj1 (taskBStructure_length w) HB) as Hm.
        assert (Hold : stringTime (taskB_at (taskBStructure_mem w) j) = 0).
        { apply Hempty. eapply list_elem_of_lookup_2.
          apply (taskBStructure_lookup w j HB Hj). }
        rewrite Hmem.
        destruct (Nat.lt_total j slot) as [Hlt | [-> | Hgt]].
        -- rewrite stringTime_stored_before by (apply Htok || lia).
           exact Hold.
        -- rewrite taskB_at_stored;
             [reflexivity | lia | apply Htok
              | apply alphanumeric8_no_NUL; exact Htok].
        -- destruct (Nat.eq_dec j (S slot)) as [-> | Hne].
           ++ rewrite taskB_at_stored_next by (apply Htok || lia).
              cbn [stringTime]. rewrite Hold. reflexivity.
           ++ rewrite taskB_at_stored_after by (apply Htok || lia).
              exact Hold.
      * cbn [is_capture] in He. congruence.
Qed.

(** The sampling loop stops at the first draw that lands on a populated
    slot, having consumed the draws up to it. *)
Lemma find_valid_B_first (k : nat) :
  forall (w : World) (b : taskBStructure_t) (fuel : nat),
    length (taskBStructure w) = 5%nat ->
    (forall j, (j < k)%nat ->
       exists b', taskBStructure w
                    !! Z.to_nat (Z.rem (rand_seq (rand_calls w + j)) 5)
                  = Some b' /\ stringTime b' = 0) ->
    taskBStructure w !! Z.to_nat (Z.rem (rand_seq (rand_calls w + k)) 5)
      = Some b ->
    stringTime b <> 0 ->
    (k < fuel)%nat ->
    find_valid_B rand_seq fuel w
    = Done (Z.rem (rand_seq (rand_calls w + k)) 5)
           (set_rand_calls (rand_calls w + S k) w).
Proof.
  induction k as [| k IH]; intros w b fuel HB Hbefore Hb Hocc Hfuel.
  - destruct fuel as [| fuel]; [lia |].
    destruct (find_valid_B_attempt fuel w HB) as (b0 & _ & Hb0 & Heq).
    rewrite Nat.add_0_r in *. rewrite Hb in Hb0. injection Hb0 as <-.
    rewrite Heq. apply Z.eqb_neq in Hocc. rewrite Hocc.
    rewrite Nat.add_1_r. reflexivity.
  - destruct fuel as [| fuel]; [lia |].
    destruct (find_valid_B_attempt fuel w HB) as (b0 & _ & Hb0 & Heq).
    rewrite Heq. clear Heq.
    destruct (Hbefore 0%nat ltac:(lia)) as (b' & Hb' & Hzero).
    rewrite Nat.add_0_r in Hb'. rewrite Hb' in Hb0. injection Hb0 as <-.
    rewrite Hzero. cbn [Z.eqb].
    rewrite (IH (set_rand_calls (S (rand_calls w)) w) b fuel); try assumption;
      try lia; cbn [rand_calls set_rand_calls taskBStructure].
    + replace (S (rand_calls w) + k)%nat with (rand_calls w + S k)%nat by lia.
      replace (S (rand_calls w) + S k)%nat with (rand_calls w + S (S k))%nat
        by lia.
      reflexivity.
    + intros j Hj.
      replace (S (rand_calls w) + j)%nat with (rand_calls w + S j)%nat by lia.
      apply Hbefore. lia.
    + replace (S (rand_calls w) + k)%nat with (rand_calls w + S k)%nat by lia.
      exact Hb.
Qed.

(** X17: when the first [k] draws of a capture land on slots of B with
    tick count 0 and the next one on a populated slot whose string ends
    within the array and has at most 11 characters, the capture returns
    (for a bound above [k], with [E.txt] on a disk that takes the
    line): it has consumed [k + 2] draws, paired that populated entry,
    and stored the pair in the slot given by the last draw modulo 6. *)
Theorem handleInterruptC_returns_at_first_populated_draw
    (k fuel : nat) (currentTickTime : Z) (w : World) (b : taskBStructure_t)
    (old : list log_line) :
  arrays_declared w ->
  disk_writable w = true ->
  E_txt w = Some old ->
  (forall j, (j < k)%nat ->
     exists b', taskBStructure w
                  !! Z.to_nat (Z.rem (rand_seq (rand_calls w + j)) 5)
                = Some b' /\ stringTime b' = 0) ->
  taskBStructure w !! Z.to_nat (Z.rem (rand_seq (rand_calls w + k)) 5)
    = Some b ->
  stringTime b <> 0 ->
  terminated
    (drop (sizeof_taskBStructure_t
           * Z.to_nat (Z.rem (rand_seq (rand_calls w + k)) 5)
           + offsetof_stringPlacer) (taskBStructure_mem w)) = true ->
  (String.length (stringPlacer b) <= valueE_string_room)%nat ->
  (k < fuel)%nat ->
  exists w',
    handleInterruptC rand_seq fuel currentTickTime w = Done tt w' /\
    rand_calls w' = (rand_calls w + k + 2)%nat /\
    valueEStructure w'
    = <[Z.to_nat (Z.rem (rand_seq (rand_calls w + S k)) 6)
        := captured w currentTickTime b]> (valueEStructure w).
Proof.
  intros [HB HF] Hdisk HE Hbefore Hb Hocc Hterm Hfits Hfuel.
  change (Z.to_nat SIZE_OF_THE_TASK_B_ARRAY) with 5%nat in HB.
  change (Z.to_nat SIZE_OF_VALUE_E_STRUCTURE) with 7%nat in HF.
  pose proof (find_valid_B_first k w b fuel HB Hbefore Hb Hocc Hfuel) as Hfind.
  pose proof (rand_range (rand_calls w + k)) as Hrk.
  pose proof (rem_nonneg_bound (rand_seq (rand_calls w + k)) 5
                ltac:(lia) ltac:(lia)) as Hremk.
  pose proof (rand_range (rand_calls w + S k)) as Hr.
  pose proof (rem_nonneg_bound (rand_seq (rand_calls w + S k)) 6
                ltac:(lia) ltac:(lia)) as Hrem.
  unfold handleInterruptC, bind at 1, gets. unfold bind at 1.
  rewrite Hfind.
  unfold generateIntRandomNumber, bind at 1 2, rand, ret at 1.
  unfold bind at 1, gets.
  cbn [rand_calls set_rand_calls].
  change (taskBStructure (set_rand_calls _ (set_rand_calls _ w)))
    with (taskBStructure w).
  change (SIZE_OF_VALUE_E_STRUCTURE - 1) with 6.
  unfold bind at 1, array_read.
  destruct (Z.rem (rand_seq (rand_calls w + k)) 5 <? 0) eqn:Hneg;
    [apply Z.ltb_lt in Hneg; lia |].
  rewrite Hb. unfold ret at 1.
  unfold bind at 1, gets. cbn [taskBStructure_mem set_rand_calls].
  unfold bind at 1. rewrite Hterm.
  apply Nat.leb_le in Hfits. rewrite Hfits. cbn [andb]. unfold ret at 1.
  unfold bind at 1, gets. cbn [valueEStructure set_rand_calls].
  unfold bind at 1. rewrite array_write_Done by (rewrite HF; lia).
  unfold bind at 1, modify.
  erewrite writeToFileE_spec; [| exact HE | exact Hdisk | lia |].
  - eexists. split; [reflexivity |]. cbn.
    split; [lia |]. unfold captured. destruct b. reflexivity.
  - cbn [valueEStructure set_valueEStructure].
    apply list_lookup_insert_eq. lia.
Qed.

End Properties.

Section AnyDraws.

(** No assumption on the draws in this section. *)
Variable rand_seq : nat -> Z.

(** X4: the [configASSERT] of task A cannot fail: its condition is a
    disjunction that holds of every number, so an iteration returns
    whatever [rand()] yields, in its range or not. *)
Theorem privateTaskA_assertion_never_fails (w : World) :
  exists w', privateTaskA_iteration rand_seq w = Done tt w'.
Proof.
  unfold privateTaskA_iteration, bind, rand, modify, printf, configASSERT.
  cbn [rand_calls set_rand_calls].
  set (v := int64 _).
  assert (Hassert : (100000000000 <? v) || (v <? 1000000000000) = true).
  { destruct (100000000000 <? v) eqn:Hlow; [reflexivity |].
    apply Z.ltb_ge in Hlow. cbn. apply Z.ltb_lt. lia. }
  rewrite Hassert. eexists. reflexivity.
Qed.

End AnyDraws.

(** * The theorems at the sample data *)

Lemma fresh_world_empty (b : taskBStructure_t) :
  b ∈ taskBStructure fresh_world -> stringTime b = 0.
Proof.
  revert b. apply (Forall_forall (fun b => stringTime b = 0)).
  change (taskBStructure fresh_world)
    with (map (taskB_at (taskBStructure_mem fresh_world)) (seq 0 5)).
  repeat constructor.
Qed.

(** What the code reads in [taskBStructure] after two iterations of
    task B into neighbouring slots: the first string has lost its NUL to
    the tick count of the second slot and reads 10 bytes long; and a
    tick count of 5000 in the slot after the one written reads 4864. *)
Example taskBStructure_overrun :
  String.length (stringPlacer (taskB_at (taskBStructure_mem overrun_world) 0))
  = 10%nat /\
  taskB_at (taskBStructure_mem overrun_world) 1 = mk_taskB 5000 "ijklmnop" /\
  taskBStructure slot_3_world !! 3%nat = Some (mk_taskB 10 "abcdefgh") /\
  taskBStructure slot_3_world !! 4%nat = Some (mk_taskB 4864 "").
Proof. repeat split; vm_compute; reflexivity. Qed.

Lemma privateTaskA_publishes_12_digits_witness :
  exists w',
    privateTaskA_iteration sample_draws fresh_world = Done tt w' /\
    100000000000 <= currentRandomNumberFromTaskA w' <= 999999999999 /\
    console w'
    = (console fresh_world ++ [PrintA (currentRandomNumberFromTaskA w')])%list.
Proof.
  apply (privateTaskA_publishes_12_digits 32767 sample_draws).
  - unfold INT_MAX. lia.
  - exact sample_draws_range.
Defined.

Lemma privateTaskB_never_writes_slot_4_witness :
  exists w' slot token,
    privateTaskB_iteration sample_draws 10 fresh_world = Done tt w' /\
    (slot < 4)%nat /\
    taskBStructure w' !! slot = Some (mk_taskB (10 mod 4294967296) token) /\
    forall i, (12 * 4 < i)%nat ->
      taskBStructure_mem w' !! i = taskBStructure_mem fresh_world !! i.
Proof.
  apply (privateTaskB_never_writes_slot_4 32767 sample_draws).
  - exact sample_draws_range.
  - reflexivity.
Defined.

Lemma privateTaskB_token_overruns_stringPlacer_witness :
  exists w' slot token,
    privateTaskB_iteration sample_draws 10 fresh_world = Done tt w' /\
    taskBStructure w' !! slot
      = Some (mk_taskB (10 mod 4294967296) token) /\
    String.length token = Z.to_nat NUMBER_OF_ALPHANUMERIC_DIGITS /\
    (forall i, (i < 8)%nat ->
       list_ascii_of_string token !! i
       = list_ascii_of_string charset
           !! Z.to_nat (Z.rem (sample_draws (rand_calls fresh_world + i)) 62)) /\
    Forall (fun c => c ∈ list_ascii_of_string charset)
           (list_ascii_of_string token) /\
    sizeof_taskBRandomString < Z.of_nat (String.length token + 1) /\
    (sizeof_stringPlacer < String.length token + 1)%nat /\
    taskBStructure_mem w' !! (sizeof_taskBStructure_t * S slot)%nat
      = Some NUL /\
    exists next,
      taskBStructure fresh_world !! S slot = Some next /\
      taskBStructure w' !! S slot
        = Some (mk_taskB (low_byte_cleared (stringTime next))
                         (stringPlacer next)).
Proof.
  apply (privateTaskB_token_overruns_stringPlacer 32767 sample_draws).
  - exact sample_draws_range.
  - reflexivity.
Defined.



(** A lookup of a number held by the slots 0 and 1 prints the found line
    of slot 1 after the one of slot 0. *)
Lemma handleInterruptG_reports_second_match :
  exists w',
    handleInterruptG 555555555555 duplicate_world = Done tt w' /\
    console w'
    = [PromptCode; ValueFound 10 "aaaaaaaa"; ValueFound 15 "bbbbbbbb"].
Proof. eexists. split; [vm_compute; reflexivity | reflexivity]. Qed.

Lemma handleInterruptG_reports_every_match_witness :
  exists w' l1 l2 l3,
    handleInterruptG 555555555555 duplicate_world = Done tt w' /\
    console w'
    = (console duplicate_world
       ++ PromptCode :: l1 ++ ValueFound 10 "aaaaaaaa" :: l2
       ++ ValueFound 15 "bbbbbbbb" :: l3)%list.
Proof.
  apply (handleInterruptG_reports_every_match 555555555555 duplicate_world
           0%nat 1%nat
           (mk_valueE (mk_taskB 10 "aaaaaaaa") (mk_valueD 20 555555555555))
           (mk_valueE (mk_taskB 15 "bbbbbbbb") (mk_valueD 21 555555555555)));
    first [reflexivity | lia].
Defined.


(** With no slot of B populated, the capture is still drawing slots
    after any number of attempts. *)
Lemma handleInterruptC_hangs_on_empty_cache :
  ~ (exists fuel,
       handleInterruptC sample_draws fuel 20 fresh_world <> OutOfFuel).
Proof.
  intros [fuel Hrun]. apply Hrun.
  unfold handleInterruptC, bind at 1, gets. unfold bind at 1.
  rewrite (find_valid_B_empty 32767 sample_draws sample_draws_range);
    [reflexivity | reflexivity | exact fresh_world_empty].
Qed.

Lemma handleInterruptC_empty_cache_never_returns_witness :
  handleInterruptC sample_draws 1000 20 fresh_world = OutOfFuel.
Proof.
  apply (handleInterruptC_empty_cache_never_returns 32767 sample_draws
           sample_draws_range).
  - reflexivity.
  - exact fresh_world_empty.
Defined.




(** The sample run: the second run of the program drops the line of the
    run before and numbers its two captures 0 and 1. *)
Example sample_run_log :
  exists w,
    run sample_draws 20 sample_run (main_payrange rerun_world) = Done tt w /\
    fileELineNumber w = 2 /\
    E_txt w = Some [mk_line 0 10 "PyhudWFS" 20 155834582780;
                    mk_line 1 10 "PyhudWFS" 30 155834582780].
Proof. eexists. split; [vm_compute; reflexivity |]. split; reflexivity. Qed.


(** * The further properties at the sample data *)

Lemma generateIntRandomNumber_in_range_witness :
  exists r,
    generateIntRandomNumber sample_draws 5 fresh_world
      = Done r (set_rand_calls (S (rand_calls fresh_world)) fresh_world) /\
    0 <= r < 5.
Proof.
  apply (generateIntRandomNumber_in_range 32767 sample_draws
           sample_draws_range 5 fresh_world).
  lia.
Defined.

Lemma generateRandomString_fills_buffer_witness :
  (3 = 0 \/ Some "stale" = None ->
   generateRandomString sample_draws (Some "stale") 3 fresh_world
   = Done (Some "stale") fresh_world) /\
  (3 <> 0 -> Some "stale" <> None ->
   exists s,
     generateRandomString sample_draws (Some "stale") 3 fresh_world
       = Done (Some s)
              (set_rand_calls (rand_calls fresh_world + Z.to_nat 3)
                              fresh_world) /\
     String.length s = Z.to_nat 3 /\
     Forall (fun c => c ∈ list_ascii_of_string charset)
            (list_ascii_of_string s)).
Proof.
  apply (generateRandomString_fills_buffer 32767 sample_draws
           sample_draws_range (Some "stale") 3 fresh_world).
  lia.
Defined.

Lemma privateTaskA_never_publishes_largest_witness :
  exists w',
    privateTaskA_iteration sample_draws fresh_world = Done tt w' /\
    100000000000 <= currentRandomNumberFromTaskA w' <= 999999999998 /\
    rand_calls w' = S (S (rand_calls fresh_world)) /\
    taskBStructure w' = taskBStructure fresh_world /\
    valueEStructure w' = valueEStructure fresh_world /\
    fileELineNumber w' = fileELineNumber fresh_world /\
    E_txt w' = E_txt fresh_world.
Proof.
  apply (privateTaskA_never_publishes_largest 32767 sample_draws).
  - unfold INT_MAX. lia.
  - exact sample_draws_range.
Defined.



Lemma handleInterruptG_only_reads_witness :
  exists w' w'' lines,
    handleInterruptG 555555555555 duplicate_world = Done tt w' /\
    console w' = (console duplicate_world ++ PromptCode :: lines)%list /\
    taskA_suspended w' = false /\
    valueEStructure w' = valueEStructure duplicate_world /\
    taskBStructure w' = taskBStructure duplicate_world /\
    currentRandomNumberFromTaskA w'
      = currentRandomNumberFromTaskA duplicate_world /\
    fileELineNumber w' = fileELineNumber duplicate_world /\
    E_txt w' = E_txt duplicate_world /\
    rand_calls w' = rand_calls duplicate_world /\
    handleInterruptG 555555555555 w' = Done tt w'' /\
    console w'' = (console w' ++ PromptCode :: lines)%list.
Proof.
  apply (handleInterruptG_only_reads 555555555555 duplicate_world).
  cbn. lia.
Defined.

Lemma handleInterruptG_lines_characterised_witness :
  let hits :=
    List.filter
      (fun e => 555555555555 =? randomNumber (currentValueD e))
      (take 6 (valueEStructure duplicate_world)) in
  exists w',
    handleInterruptG 555555555555 duplicate_world = Done tt w' /\
    console w'
    = (console duplicate_world
       ++ PromptCode
          :: match hits with
             | [] => [ValueNotFound 555555555555]
             | _ :: _ =>
                 map (fun e => ValueFound (stringTime (randomValueB e))
                                          (stringPlacer (randomValueB e)))
                     hits
             end)%list.
Proof.
  apply (handleInterruptG_lines_characterised 555555555555 duplicate_world).
  cbn. lia.
Defined.

Lemma writeToFileE_appends_within_a_run_witness :
  exists w',
    writeToFileE 1 logged_world = Done tt w' /\
    E_txt w'
    = Some ([mk_line 0 10 "aaaaaaaa" 20 555555555555]
            ++ [line_of (fileELineNumber logged_world)
                  (mk_valueE (mk_taskB 15 "bbbbbbbb")
                             (mk_valueD 21 555555555555))])%list /\
    fileELineNumber w' = int32 (fileELineNumber logged_world + 1) /\
    valueEStructure w' = valueEStructure logged_world /\
    console w' = console logged_world.
Proof.
  apply (writeToFileE_appends_within_a_run 1 logged_world).
  - cbn. lia.
  - reflexivity.
  - reflexivity.
  - lia.
  - reflexivity.
Defined.

Lemma writeToFileE_needs_the_file_witness :
  writeToFileE 0 fresh_world = Fault NullFile /\
  forall w', handleInterruptC sample_draws 10 20 fresh_world <> Done tt w'.
Proof.
  apply (writeToFileE_needs_the_file 32767 sample_draws sample_draws_range
           0 10 20 fresh_world).
  - reflexivity.
  - reflexivity.
Defined.




Lemma run_keeps_numbers_published_witness :
  exists w,
    run sample_draws 20 sample_run
        (main_payrange (boot (Some [mk_line 5 1 "old" 2 3]) true))
    = Done tt w /\
    (currentRandomNumberFromTaskA w = 0 \/
     published (currentRandomNumberFromTaskA w)) /\
    (forall i e, valueEStructure w !! i = Some e ->
       randomNumber (currentValueD e) = 0 \/
       published (randomNumber (currentValueD e))).
Proof.
  eexists. split; [vm_compute; reflexivity |].
  apply (run_keeps_numbers_published 32767 sample_draws
           ltac:(unfold INT_MAX; lia) sample_draws_range
           (Some [mk_line 5 1 "old" 2 3]) true 20 sample_run).
  vm_compute. reflexivity.
Defined.

Lemma run_logs_one_line_per_capture_witness :
  exists w,
    run sample_draws 20 sample_run (main_payrange rerun_world) = Done tt w /\
    fileELineNumber w = Z.of_nat (captures sample_run) /\
    (captures sample_run <> 0%nat ->
     exists lines,
       E_txt w = Some lines /\ length lines = captures sample_run).
Proof.
  eexists. split; [vm_compute; reflexivity |].
  apply (run_logs_one_line_per_capture 32767 sample_draws
           ltac:(unfold INT_MAX; lia) sample_draws_range 20 sample_run
           rerun_world).
  - split; reflexivity.
  - vm_compute. discriminate.
  - vm_compute. reflexivity.
Defined.


Lemma no_capture_before_nonzero_tick_witness :
  run sample_draws 1000 early_run fresh_world = OutOfFuel.
Proof.
  apply (no_capture_before_nonzero_tick 32767 sample_draws
           ltac:(unfold INT_MAX; lia) sample_draws_range 1000 early_run
           fresh_world).
  - split; reflexivity.
  - exact fresh_world_empty.
  - repeat constructor.
  - apply Exists_cons_tl, Exists_cons_tl, Exists_cons_hd. reflexivity.
Defined.

Lemma handleInterruptC_returns_at_first_populated_draw_witness :
  exists w',
    handleInterruptC sample_draws 10 20 one_token_world = Done tt w' /\
    rand_calls w' = (rand_calls one_token_world + 1 + 2)%nat /\
    valueEStructure w'
    = <[Z.to_nat (Z.rem (sample_draws (rand_calls one_token_world + 2)) 6)
        := captured one_token_world 20 (mk_taskB 10 "Ab12xyzQ")]>
        (valueEStructure one_token_world).
Proof.
  apply (handleInterruptC_returns_at_first_populated_draw 32767 sample_draws
           sample_draws_range 1 10 20 one_token_world
           (mk_taskB 10 "Ab12xyzQ") []).
  - split; reflexivity.
  - reflexivity.
  - reflexivity.
  - intros j Hj. assert (j = 0%nat) as -> by lia.
    exists (mk_taskB 0 ""). split; reflexivity.
  - reflexivity.
  - cbn. discriminate.
  - reflexivity.
  - cbn. unfold valueE_string_room. lia.
  - lia.
Defined.
